(** * nnsmith: valid-input search experiment (experiments/input_search.py)

    A shallow embedding of the benchmarking script that compares two ways of
    finding numerically valid inputs for a generated network:

    - the candidate sampler (lines 64-70),
    - the blind "v3" search loop (lines 72-88),
    - the gradient search loop with its fall back to v3 (lines 90-114),
    - the surrounding per-model harness and its result table (lines 41-116);

    and of the script converting LEMON's models
    (experiments/lemon_tf2onnx.py): the analysis of a graph's inputs and
    outputs (lines 19-38) and the ranking and conversion loop (lines
    94-169).

    Python floats are idealised as exact rationals ([Q]); rounding is not
    modelled.  The network ([SymbolNet]) lives in [nnsmith.graph_gen] and is
    kept abstract: its methods are the fields of a record and every theorem
    about the loops is stated for an arbitrary network. *)

From Stdlib Require Import List ZArith QArith Qfield Lia Lqa String Ascii Bool Arith.
From Stdlib Require Import DecimalString Permutation Sorted.
Import ListNotations.

Local Open Scope nat_scope.

(* ------------------------------------------------------------------------- *)
(** * Python exceptions and fallible computations *)

(** What the script can observe of a raised exception: whether
    [except RuntimeError] catches it, and the text of [str(e)]. *)
Record PyExn : Type := mkExn {
  isinstance_RuntimeError : bool;
  exn_str : string
}.

Inductive result (A : Type) : Type :=
| Ok (a : A)
| Raise (e : PyExn).
Arguments Ok {A} a.
Arguments Raise {A} e.

Definition bind {A B : Type} (r : result A) (k : A -> result B) : result B :=
  match r with
  | Ok a => k a
  | Raise e => Raise e
  end.

Definition ZeroDivisionError : PyExn :=
  mkExn false "division by zero".

Definition ValueError_linspace : PyExn :=
  mkExn false "Number of samples must be non-negative.".

(* ------------------------------------------------------------------------- *)
(** * Numeric collaborators: [np.linspace] and [torch.rand] *)

Module Numpy.

(** [np.arange(0, num)] as rationals. *)
Definition arange (num : nat) : list Q :=
  map (fun i => inject_Z (Z.of_nat i)) (seq 0 num).

(** [y[-1] = stop] *)
Definition set_last (y : list Q) (stop : Q) : list Q :=
  match y with
  | [] => []
  | _ :: _ => removelast y ++ [stop]
  end.

(** [np.linspace(start, stop, num)] with the default [endpoint=True],
    following NumPy's algorithm: [div = num - 1]; the grid is
    [arange(0, num) * step + start] with [step = (stop - start) / div] when
    [div > 0], and [arange(0, num) * (stop - start) + start] otherwise;
    the last entry is overwritten with [stop] when [num > 1].  A negative
    [num] raises [ValueError]. *)
Definition linspace (start stop : Q) (num : Z) : result (list Q) :=
  if (num <? 0)%Z then Raise ValueError_linspace
  else
    let n := Z.to_nat num in
    let div := (num - 1)%Z in
    let delta := (stop - start)%Q in
    let y := arange n in
    let y :=
      if (0 <? div)%Z then
        let step := (delta / inject_Z div)%Q in
        if Qeq_bool step 0
        then map (fun i => (i / inject_Z div * delta)%Q) y
        else map (fun i => (i * step)%Q) y
      else map (fun i => (i * delta)%Q) y in
    let y := map (fun x => (x + start)%Q) y in
    Ok (if (1 <? num)%Z then set_last y stop else y).

End Numpy.

Module Torch.

Definition Shape : Type := list nat.

(** Number of elements of a tensor of the given shape. *)
Definition numel (shape : Shape) : nat := fold_right Nat.mul 1 shape.

(** A tensor: its shape and its elements in row-major order. *)
Record Tensor : Type := mkTensor {
  shape : Shape;
  data : list Q
}.

(** The global random generator seeded by [torch.manual_seed]: the stream
    of raw draws (each in [[0, 1)]) and the number of draws consumed. *)
Record Generator : Type := mkGenerator {
  draw : nat -> Q;
  consumed : nat
}.


(** [torch.rand(shape)]: one fresh draw per element. *)
Definition rand (g : Generator) (sh : Shape) : Tensor * Generator :=
  (mkTensor sh (map (draw g) (seq (consumed g) (numel sh))),
   mkGenerator (draw g) (consumed g + numel sh)).

(** [t * c] for a Python scalar [c]. *)
Definition mul_scalar (t : Tensor) (c : Q) : Tensor :=
  mkTensor (shape t) (map (fun x => (x * c)%Q) (data t)).

(** [c + t] for a Python scalar [c]. *)
Definition scalar_add (c : Q) (t : Tensor) : Tensor :=
  mkTensor (shape t) (map (fun x => (c + x)%Q) (data t)).

End Torch.

Import Torch.

(** One candidate assignment: a tensor per declared input of the network. *)
Definition Candidate : Type := list Tensor.

(* ------------------------------------------------------------------------- *)
(** * The candidate sampler (input_search.py, lines 64-70) *)

(** [1 / n_step] on a Python [int]: true division, [ZeroDivisionError] at 0. *)
Definition true_div_1 (n_step : Z) : result Q :=
  if (n_step =? 0)%Z then Raise ZeroDivisionError
  else Ok (1 / inject_Z n_step)%Q.

(** [[v + torch.rand(ii.op.shape) * interval for ii in net.input_info]] *)
Fixpoint init_tensors_for (g : Generator) (v interval : Q)
    (input_info : list Shape) : Candidate * Generator :=
  match input_info with
  | [] => ([], g)
  | ii :: rest =>
      let (r, g1) := rand g ii in
      let t := scalar_add v (mul_scalar r interval) in
      let (ts, g2) := init_tensors_for g1 v interval rest in
      (t :: ts, g2)
  end.

(** The body of [for v in np.linspace(-1, 1, n_step)], over the list of
    centers. *)
Fixpoint sample_loop (g : Generator) (interval : Q) (input_info : list Shape)
    (centers : list Q) : list Candidate * Generator :=
  match centers with
  | [] => ([], g)
  | v :: rest =>
      let (init_tensors, g1) := init_tensors_for g v interval input_info in
      let (samples, g2) := sample_loop g1 interval input_info rest in
      (init_tensors :: samples, g2)
  end.

(** Lines 64-70: [interval] is computed first, then the sweep. *)
Definition init_tensor_samples (g : Generator) (n_step : Z)
    (input_info : list Shape) : result (list Candidate * Generator) :=
  bind (true_div_1 n_step) (fun interval =>
  bind (Numpy.linspace (-1) 1 n_step) (fun centers =>
  Ok (sample_loop g interval input_info centers))).


(* ------------------------------------------------------------------------- *)
(** * The network under test *)

(** The part of [SymbolNet] the script touches.  [NetState] is the mutable
    state of one network object.  [forward] is the call of the network on
    the tensors under [torch.no_grad()]; it updates the state (and with it
    the attribute [invalid_found_last]) or raises.  [grad_input_gen] returns
    the content of [sat_inputs] ([None] when it gave up) together with the
    updated state, or raises. *)
Record SymbolNet (NetState : Type) : Type := mkSymbolNet {
  set_check_intermediate_numeric : bool -> NetState -> NetState;
  forward : NetState -> Candidate -> result NetState;
  invalid_found_last : NetState -> bool;
  grad_input_gen :
    NetState -> Candidate -> bool -> result (option Candidate * NetState);
  input_info : NetState -> list Shape;
  graph_nodes : NetState -> nat
}.
Arguments set_check_intermediate_numeric {NetState} _ _ _.
Arguments forward {NetState} _ _ _.
Arguments invalid_found_last {NetState} _ _.
Arguments grad_input_gen {NetState} _ _ _ _.
Arguments input_info {NetState} _ _.
Arguments graph_nodes {NetState} _ _.

(** What a search reports: the pair ([succ_*], [try_times_*]). *)
Record Outcome : Type := mkOutcome {
  succ : bool;
  try_times : nat
}.

(** [needle in hay] on Python strings. *)
Fixpoint contains (needle hay : string) : bool :=
  if String.prefix needle hay then true
  else match hay with
       | EmptyString => false
       | String _ hay' => contains needle hay'
       end.

Definition NO_GRAD_FN : string :=
  "element 0 of tensors does not require grad and does not have a grad_fn".

(** The test of lines 100-101: the exception is a [RuntimeError] whose text
    contains the "no grad_fn" message. *)
Definition is_no_grad (e : PyExn) : bool :=
  isinstance_RuntimeError e && contains NO_GRAD_FN (exn_str e).

(** What a search leaves behind: the outcome, the state of the network
    object, and the candidates handed to the network, in call order. *)
Record V3Run (NetState : Type) : Type := mkV3Run {
  v3_outcome : Outcome;
  v3_net : NetState;
  v3_called : list Candidate
}.
Arguments mkV3Run {NetState} _ _ _.
Arguments v3_outcome {NetState} _.
Arguments v3_net {NetState} _.
Arguments v3_called {NetState} _.

Record GradRun : Type := mkGradRun {
  grad_outcome : Outcome;
  grad_called : list Candidate
}.

Section Search.

Context {NetState : Type} (net : SymbolNet NetState).

(** Lines 79-84: [for init_tensors in init_tensor_samples], with
    [succ_v3 = False] until the [break]. *)
Fixpoint v3_loop (s : NetState) (samples : list Candidate)
    (try_times_v3 : nat) (called : list Candidate)
    : result (V3Run NetState) :=
  match samples with
  | [] => Ok (mkV3Run (mkOutcome false try_times_v3) s called)
  | init_tensors :: rest =>
      let try_times_v3 := S try_times_v3 in
      match forward net s init_tensors with
      | Raise e => Raise e
      | Ok s' =>
          if negb (invalid_found_last net s')
          then Ok (mkV3Run (mkOutcome true try_times_v3) s'
                     (called ++ [init_tensors]))
          else v3_loop s' rest try_times_v3 (called ++ [init_tensors])
      end
  end.

(** Lines 74-84. *)
Definition v3_search (s : NetState) (samples : list Candidate)
    : result (V3Run NetState) :=
  v3_loop (set_check_intermediate_numeric net true s) samples 0 [].

(** Lines 95-109.  [v3] is the pair ([succ_v3], [try_times_v3]) left by the
    blind search. *)
Fixpoint grad_loop (use_cuda : bool) (v3 : Outcome) (s : NetState)
    (samples : list Candidate) (try_times_grad : nat)
    (called : list Candidate) : result GradRun :=
  match samples with
  | [] => Ok (mkGradRun (mkOutcome false try_times_grad) called)
  | init_tensors :: rest =>
      let try_times_grad := S try_times_grad in
      match grad_input_gen net s init_tensors use_cuda with
      | Raise e =>
          if isinstance_RuntimeError e then
            if contains NO_GRAD_FN (exn_str e)
            then Ok (mkGradRun (mkOutcome (succ v3) (try_times v3))
                       (called ++ [init_tensors]))
            else Raise e
          else Raise e
      | Ok (sat_inputs, s') =>
          match sat_inputs with
          | Some _ =>
              Ok (mkGradRun (mkOutcome true try_times_grad)
                    (called ++ [init_tensors]))
          | None =>
              grad_loop use_cuda v3 s' rest try_times_grad
                (called ++ [init_tensors])
          end
      end
  end.

(** Lines 93-109. *)
Definition grad_search (use_cuda : bool) (v3 : Outcome) (s : NetState)
    (samples : list Candidate) : result GradRun :=
  grad_loop use_cuda v3 s samples 0 [].

(** Both searches of one iteration, as the script sequences them: the
    gradient search runs on the network object as the blind search left it
    and reads the blind search's outcome. *)
Definition both_searches (use_cuda : bool) (s : NetState)
    (samples : list Candidate) : result (Outcome * Outcome) :=
  bind (v3_search s samples) (fun v3 =>
  bind (grad_search use_cuda (v3_outcome v3) (v3_net v3) samples) (fun g =>
  Ok (v3_outcome v3, grad_outcome g))).

(** ** Describing a run from outside the loops *)

(** The state after forward-evaluating every candidate of [pre], provided
    each evaluation returned with [invalid_found_last] set. *)
Definition all_invalid (s : NetState) (pre : list Candidate)
    : option NetState :=
  fold_left
    (fun acc c =>
       match acc with
       | None => None
       | Some st =>
           match forward net st c with
           | Ok st' => if invalid_found_last net st' then Some st' else None
           | Raise _ => None
           end
       end)
    pre (Some s).

(** The state after [grad_input_gen] was called on every candidate of [pre],
    provided each call returned [None]. *)
Definition all_gave_up (use_cuda : bool) (s : NetState)
    (pre : list Candidate) : option NetState :=
  fold_left
    (fun acc c =>
       match acc with
       | None => None
       | Some st =>
           match grad_input_gen net st c use_cuda with
           | Ok (None, st') => Some st'
           | _ => None
           end
       end)
    pre (Some s).

(** The states a blind search passes through: checking of intermediate
    values has been switched on, and forward evaluations followed. *)
Inductive checking : NetState -> Prop :=
| checking_enabled (s : NetState) :
    checking (set_check_intermediate_numeric net true s)
| checking_forward (s s' : NetState) (c : Candidate) :
    checking s -> forward net s c = Ok s' -> checking s'.

(** What one forward evaluation lets the script see: the flag
    [invalid_found_last] afterwards, or the exception. *)
Definition observe (r : result NetState) : result bool :=
  match r with
  | Ok s => Ok (invalid_found_last net s)
  | Raise e => Raise e
  end.

(** Forward evaluation with checking switched on is a function of the
    candidate alone. *)
Definition forward_pure : Prop :=
  forall s s' c,
    checking s -> checking s' ->
    observe (forward net s c) = observe (forward net s' c).


(** The outcome a blind search reports, or the exception it lets through. *)
Definition reported (r : result (V3Run NetState)) : result Outcome :=
  match r with
  | Ok run => Ok (v3_outcome run)
  | Raise e => Raise e
  end.

End Search.


(* ------------------------------------------------------------------------- *)
(** * The harness (input_search.py, lines 16-116) *)

(** The parsed command line, as far as the experiment reads it.  [exp_seed]
    is the seed after lines 31-33 have filled in a missing one. *)
Record Args : Type := mkArgs {
  max_nodes : Z;
  exp_seed : Z;
  n_inp_sample : Z;
  n_model : Z;
  use_cuda : bool
}.

(** The dictionary [results]: one list per column. *)
Record Results : Type := mkResults {
  model_seed : list Z;
  n_nodes : list nat;
  v3_time : list Q;
  v3_try : list nat;
  v3_succ : list bool;
  grad_time : list Q;
  grad_try : list nat;
  grad_succ : list bool
}.

(** Lines 41-52. *)
Definition empty_results : Results :=
  mkResults [] [] [] [] [] [] [] [].

Definition append_n_nodes (x : nat) (r : Results) : Results :=
  mkResults (model_seed r) (n_nodes r ++ [x]) (v3_time r) (v3_try r)
    (v3_succ r) (grad_time r) (grad_try r) (grad_succ r).

Definition append_model_seed (x : Z) (r : Results) : Results :=
  mkResults (model_seed r ++ [x]) (n_nodes r) (v3_time r) (v3_try r)
    (v3_succ r) (grad_time r) (grad_try r) (grad_succ r).

Definition append_v3_time (x : Q) (r : Results) : Results :=
  mkResults (model_seed r) (n_nodes r) (v3_time r ++ [x]) (v3_try r)
    (v3_succ r) (grad_time r) (grad_try r) (grad_succ r).

Definition append_v3_try (x : nat) (r : Results) : Results :=
  mkResults (model_seed r) (n_nodes r) (v3_time r) (v3_try r ++ [x])
    (v3_succ r) (grad_time r) (grad_try r) (grad_succ r).

Definition append_v3_succ (x : bool) (r : Results) : Results :=
  mkResults (model_seed r) (n_nodes r) (v3_time r) (v3_try r)
    (v3_succ r ++ [x]) (grad_time r) (grad_try r) (grad_succ r).

Definition append_grad_time (x : Q) (r : Results) : Results :=
  mkResults (model_seed r) (n_nodes r) (v3_time r) (v3_try r)
    (v3_succ r) (grad_time r ++ [x]) (grad_try r) (grad_succ r).

Definition append_grad_try (x : nat) (r : Results) : Results :=
  mkResults (model_seed r) (n_nodes r) (v3_time r) (v3_try r)
    (v3_succ r) (grad_time r) (grad_try r ++ [x]) (grad_succ r).

Definition append_grad_succ (x : bool) (r : Results) : Results :=
  mkResults (model_seed r) (n_nodes r) (v3_time r) (v3_try r)
    (v3_succ r) (grad_time r) (grad_try r) (grad_succ r ++ [x]).


(** The lengths of the eight columns. *)
Definition column_lengths (r : Results) : list nat :=
  [ List.length (model_seed r); List.length (n_nodes r); List.length (v3_time r);
    List.length (v3_try r); List.length (v3_succ r); List.length (grad_time r);
    List.length (grad_try r); List.length (grad_succ r) ].


(** [pd.DataFrame(results)] accepts the dictionary only when all columns
    have one length. *)
Definition rectangular (r : Results) : bool :=
  forallb (Nat.eqb (List.length (model_seed r))) (column_lengths r).

Definition ValueError_DataFrame : PyExn :=
  mkExn false "All arrays must be of the same length".

(** Everything the script mutates outside the network object: the result
    dictionary, the torch generator, how often the clock was read, and the
    file written by [to_csv] (if any) with its name. *)
Record Machine : Type := mkMachine {
  results : Results;
  torch_rng : Generator;
  clock_reads : nat;
  csv : option (string * Results)
}.

(** State-and-exception computations over [Machine]. *)
Definition M (A : Type) : Type := Machine -> Machine * result A.

Definition ret {A : Type} (a : A) : M A := fun m => (m, Ok a).

Definition mbind {A B : Type} (c : M A) (k : A -> M B) : M B :=
  fun m =>
    let (m', r) := c m in
    match r with
    | Ok a => k a m'
    | Raise e => (m', Raise e)
    end.

Notation "x <- c ;; k" := (mbind c (fun x => k))
  (at level 61, c at next level, right associativity).
Notation "c ;;; k" := (mbind c (fun _ => k))
  (at level 61, right associativity).

Definition lift {A : Type} (r : result A) : M A := fun m => (m, r).

Definition update_results (f : Results -> Results) : M unit :=
  fun m =>
    (mkMachine (f (results m)) (torch_rng m) (clock_reads m) (csv m), Ok tt).

(** [for i in is: body(i)] *)
Fixpoint for_each (idx : list nat) (body : nat -> M unit) : M unit :=
  match idx with
  | [] => ret tt
  | i :: rest => body i ;;; for_each rest body
  end.

(** [f'r{exp_seed}-model{args.n_model}-node{args.max_nodes}-inp-search.csv'] *)
Definition exp_name (args : Args) : string :=
  ("r" ++ NilZero.string_of_int (Z.to_int (exp_seed args))
   ++ "-model" ++ NilZero.string_of_int (Z.to_int (n_model args))
   ++ "-node" ++ NilZero.string_of_int (Z.to_int (max_nodes args))
   ++ "-inp-search.csv")%string.

Section Harness.

Context {NetState : Type} (net : SymbolNet NetState).

(** [time_time k] is what the [k]-th call of [time.time()] returns. *)
Variable time_time : nat -> Q.

(** [new_model i] is what lines 55-59 produce in iteration [i]: the drawn
    [model_seed] and the freshly built network, or the exception raised by
    the generator. *)
Variable new_model : nat -> result (Z * NetState).

Variable args : Args.

Definition time_call : M Q :=
  fun m =>
    (mkMachine (results m) (torch_rng m) (S (clock_reads m)) (csv m),
     Ok (time_time (clock_reads m))).

(** Lines 64-70 on the global generator. *)
Definition sample (shapes : list Shape) : M (list Candidate) :=
  fun m =>
    match init_tensor_samples (torch_rng m) (n_inp_sample args) shapes with
    | Ok (samples, g) =>
        (mkMachine (results m) g (clock_reads m) (csv m), Ok samples)
    | Raise e => (m, Raise e)
    end.

(** Lines 55-114: the body of [for _ in tqdm(range(args.n_model))]. *)
Definition iteration (i : nat) : M unit :=
  model <- lift (new_model i) ;;
  let seed := fst model in
  let s := snd model in
  update_results (append_n_nodes (graph_nodes net s)) ;;;
  update_results (append_model_seed seed) ;;;
  init_tensor_samples <- sample (input_info net s) ;;
  strt_time <- time_call ;;
  v3 <- lift (v3_search net s init_tensor_samples) ;;
  now <- time_call ;;
  update_results (append_v3_time (now - strt_time)%Q) ;;;
  update_results (append_v3_try (try_times (v3_outcome v3))) ;;;
  update_results (append_v3_succ (succ (v3_outcome v3))) ;;;
  strt_time <- time_call ;;
  g <- lift (grad_search net (use_cuda args) (v3_outcome v3) (v3_net v3)
               init_tensor_samples) ;;
  update_results (append_grad_succ (succ (grad_outcome g))) ;;;
  update_results (append_grad_try (try_times (grad_outcome g))) ;;;
  now <- time_call ;;
  update_results (append_grad_time (now - strt_time)%Q).

(** Line 116: [pd.DataFrame(results).to_csv(exp_name, index=False)]. *)
Definition to_csv : M unit :=
  fun m =>
    if rectangular (results m)
    then (mkMachine (results m) (torch_rng m) (clock_reads m)
            (Some (exp_name args, results m)), Ok tt)
    else (m, Raise ValueError_DataFrame).

(** The iterations of the loop of line 54 for the given indices. *)
Definition models_loop (idx : list nat) : M unit := for_each idx iteration.

(** Lines 41-116, started with nothing written yet. *)
Definition main (g : Generator) : Machine * result unit :=
  (models_loop (seq 0 (Z.to_nat (n_model args))) ;;; to_csv)
    (mkMachine empty_results g 0 None).


End Harness.


(* ------------------------------------------------------------------------- *)
(** * Small concrete networks *)

(** Networks with one square-root-like operator: an evaluation is invalid
    when some input element is negative.  They differ in how
    [grad_input_gen] behaves. *)
Module Toy.

Inductive Kind : Type :=
| Refining      (* moves slightly negative elements to 0 *)
| Stubborn      (* gives up unless every element is at least 1/2 *)
| NoGradFn      (* an operator without gradient *)
| LateNoGradFn  (* gives up below 1/2, meets the missing gradient above *)
| OutOfMemory   (* a RuntimeError of another sort *)
| Misreported.  (* the no-grad text inside an exception that is not a
                   RuntimeError *)

Record State : Type := mkState {
  kind : Kind;
  check_intermediate_numeric : bool;
  invalid_last : bool
}.

Definition negative (x : Q) : bool := negb (Qle_bool 0 x).

Definition has_negative (c : Candidate) : bool :=
  existsb (fun t => existsb negative (data t)) c.

Definition relu (c : Candidate) : Candidate :=
  map (fun t => mkTensor (shape t)
                  (map (fun x => if negative x then 0%Q else x) (data t))) c.

Definition within (c : Candidate) (lo : Q) : bool :=
  forallb (fun t => forallb (Qle_bool lo) (data t)) c.

Definition toy_forward (s : State) (c : Candidate) : result State :=
  Ok (mkState (kind s) (check_intermediate_numeric s)
        (check_intermediate_numeric s && has_negative c)).

Definition no_grad_fn_error : PyExn :=
  mkExn true
    "element 0 of tensors does not require grad and does not have a grad_fn".

Definition grad_as (k : Kind) (s : State) (c : Candidate) (use_cuda : bool)
    : result (option Candidate * State) :=
  match k with
  | Refining =>
      if within c (- (1 # 2))
      then Ok (Some (relu c), mkState (kind s) true false)
      else Ok (None, mkState (kind s) true true)
  | Stubborn =>
      if within c (1 # 2)
      then Ok (Some c, mkState (kind s) true false)
      else Ok (None, mkState (kind s) true true)
  | NoGradFn => Raise no_grad_fn_error
  | LateNoGradFn =>
      if within c (1 # 2)
      then Raise no_grad_fn_error
      else Ok (None, mkState (kind s) true true)
  | OutOfMemory => Raise (mkExn true "CUDA out of memory")
  | Misreported =>
      Raise (mkExn false
        "element 0 of tensors does not require grad and does not have a grad_fn")
  end.

(** The network class: each object behaves as the kind stored in it. *)
Definition toy_net : SymbolNet State :=
  mkSymbolNet State
    (fun b s => mkState (kind s) b (invalid_last s))
    toy_forward
    invalid_last
    (fun s => grad_as (kind s) s)
    (fun _ => [[1; 2]])
    (fun _ => 3).


Definition fresh (k : Kind) : State := mkState k false false.

(** A candidate for a network with one scalar input. *)
Definition scalar (x : Q) : Candidate := [mkTensor [1] [x]].

(** A generator whose draws cycle through 0, 1/4, 1/2, 3/4. *)
Definition quarter_rng : Generator :=
  mkGenerator (fun i => inject_Z (Z.of_nat (i mod 4)) / 4)%Q 0.

Definition toy_clock (k : nat) : Q := inject_Z (Z.of_nat k).

(** A run over two models: a refining one, then one that runs out of
    memory. *)
Definition two_models (i : nat) : result (Z * State) :=
  match i with
  | 0 => Ok (11%Z, fresh Refining)
  | _ => Ok (22%Z, fresh OutOfMemory)
  end.

Definition toy_args : Args := mkArgs 25 7 2 2 false.

(** A run whose second model cannot be generated. *)
Definition second_fails (i : nat) : result (Z * State) :=
  match i with
  | 0 => Ok (11%Z, fresh Refining)
  | _ => Raise (mkExn false "generation timed out")
  end.

(** Every model generated is a refining one. *)
Definition all_refining (i : nat) : result (Z * State) :=
  Ok (5%Z, fresh Refining).

End Toy.


(* ------------------------------------------------------------------------- *)
(** * Vocabulary for statements about the sampler *)

(** All elements of a candidate, input after input. *)
Definition elements (cand : Candidate) : list Q :=
  List.concat (map data cand).

(** Number of raw draws one candidate consumes. *)
Definition draws_per_candidate (shapes : list Shape) : nat :=
  list_sum (map numel shapes).

(** The sweep of line 67. *)
Definition sweep_centers (n_step : Z) : result (list Q) :=
  Numpy.linspace (-1) 1 n_step.

(* ------------------------------------------------------------------------- *)
(** * Vocabulary for statements about the result table *)

(** Column-wise concatenation of two tables. *)
Definition extend_results (r d : Results) : Results :=
  mkResults (model_seed r ++ model_seed d) (n_nodes r ++ n_nodes d)
    (v3_time r ++ v3_time d) (v3_try r ++ v3_try d)
    (v3_succ r ++ v3_succ d) (grad_time r ++ grad_time d)
    (grad_try r ++ grad_try d) (grad_succ r ++ grad_succ d).

(** Every column holds exactly [k] entries. *)
Definition has_rows (k : nat) (r : Results) : Prop :=
  column_lengths r = repeat k 8.

(** The machine when line 41 has run: an empty table, nothing written. *)
Definition boot (g : Generator) : Machine :=
  mkMachine empty_results g 0 None.


(* ------------------------------------------------------------------------- *)
(** * The LEMON conversion script (experiments/lemon_tf2onnx.py) *)

Module Lemon.

(** ** Strings and paths *)

(** [s.split(sep)] for a separator of one character: never empty. *)
Fixpoint split_on (sep : ascii) (s : string) : list string :=
  match s with
  | EmptyString => [EmptyString]
  | String c s' =>
      if Ascii.eqb c sep then EmptyString :: split_on sep s'
      else match split_on sep s' with
           | [] => [String c EmptyString]
           | w :: ws => String c w :: ws
           end
  end.

(** [name.split('/')[-1]] *)
Definition last_component (name : string) : string :=
  last (split_on "/"%char name) EmptyString.

(** [os.path.split(p)[-1]] on a POSIX system: what follows the last
    slash. *)
Definition os_path_split_tail (p : string) : string := last_component p.

(** [os.path.join(a, b)] on a POSIX system. *)
Definition os_path_join (a b : string) : string :=
  if String.prefix "/" b then b
  else match a with
       | EmptyString => b
       | _ => if contains "/" (substring (String.length a - 1) 1 a)
              then (a ++ b)%string
              else (a ++ "/" ++ b)%string
       end.

(** ** [analyze_inputs_outputs] (lines 19-38) *)

(** An operation of a TensorFlow graph: its name, its type, and for each of
    its input tensors the position, in [graph.get_operations()], of the
    operation producing it. *)
Record Operation : Type := mkOperation {
  op_name : string;
  op_type : string;
  op_inputs : list nat
}.

(** Line 24: [len(op.inputs) == 0 and op.type == 'Placeholder']. *)
Definition is_placeholder (op : Operation) : bool :=
  (List.length (op_inputs op) =? 0) && String.eqb (op_type op) "Placeholder".

(** Lines 28-29, on the set of operations kept as the list of their
    positions. *)
Definition discard (outputs_set : list nat) (producer : nat) : list nat :=
  if existsb (Nat.eqb producer) outputs_set
  then remove Nat.eq_dec producer outputs_set
  else outputs_set.

(** Lines 23-29. *)
Fixpoint scan (ops : list Operation) (inputs : list Operation)
    (outputs_set : list nat) : list Operation * list nat :=
  match ops with
  | [] => (inputs, outputs_set)
  | op :: rest =>
      if is_placeholder op
      then scan rest (inputs ++ [op]) outputs_set
      else scan rest inputs (fold_left discard (op_inputs op) outputs_set)
  end.

(** The positions of the operations left in [outputs_set] after the loop.
    Python leaves the order of [list(outputs_set)] open; here it is the
    order of the graph. *)
Definition output_positions (ops : list Operation) : list nat :=
  snd (scan ops [] (seq 0 (List.length ops))).

(** Lines 34-37: drop control nodes, keep the last component of the name. *)
Definition public_names (ops : list Operation) : list string :=
  map (fun x => last_component (op_name x))
    (filter (fun x => negb (contains "_control_node" (op_name x))) ops).

Definition operations_at (ops : list Operation) (positions : list nat)
    : list Operation :=
  flat_map (fun i => match nth_error ops i with
                     | Some op => [op]
                     | None => []
                     end) positions.

Definition analyze_inputs_outputs (ops : list Operation)
    : list string * list string :=
  (public_names (fst (scan ops [] (seq 0 (List.length ops)))),
   public_names (operations_at ops (output_positions ops))).

(** ** NumPy on arrays of times *)

(** A NumPy float: a number or [nan]. *)
Inductive np_float : Type :=
| Finite (q : Q)
| NaN.

Definition np_add (x : np_float) (q : Q) : np_float :=
  match x with
  | Finite a => Finite (a + q)
  | NaN => NaN
  end.

Definition np_sum (a : list Q) : Q := fold_right Qplus 0%Q a.

(** [a.mean()]: [nan] for an empty array. *)
Definition np_mean (a : list Q) : np_float :=
  match a with
  | [] => NaN
  | _ :: _ => Finite (np_sum a / inject_Z (Z.of_nat (List.length a)))
  end.

(** [np.diff(a)] *)
Fixpoint np_diff (a : list Q) : list Q :=
  match a with
  | x :: (y :: _) as rest => (y - x)%Q :: np_diff rest
  | _ => []
  end.

(** [a.min()] and [a.max()] for an array with first entry [x]. *)
Definition np_min (x : Q) (rest : list Q) : Q :=
  fold_left (fun m y => if Qle_bool y m then y else m) rest x.

Definition np_max (x : Q) (rest : list Q) : Q :=
  fold_left (fun m y => if Qle_bool m y then y else m) rest x.

(** Sorting by a key, each entry placed after the entries that do not
    exceed it.  NumPy's own algorithm may order entries of equal key
    otherwise. *)
Fixpoint insert_by {A : Type} (key : A -> Q) (x : A) (l : list A) : list A :=
  match l with
  | [] => [x]
  | y :: rest =>
      if Qle_bool (key y) (key x) then y :: insert_by key x rest
      else x :: l
  end.

Definition sort_by {A : Type} (key : A -> Q) (l : list A) : list A :=
  fold_left (fun sorted x => insert_by key x sorted) l [].

(** [np.sort(a)] *)
Definition np_sort (a : list Q) : list Q := sort_by (fun x => x) a.

(** [a.argsort()] *)
Definition np_argsort (a : list Q) : list nat :=
  map snd (sort_by fst (combine a (seq 0 (List.length a)))).

(** ** The script (lines 94-169) *)

(** A file found by [rglob]: its path and [file.stat().st_mtime]. *)
Record H5File : Type := mkH5File {
  h5_path : string;
  st_mtime : Q
}.

(** One line of [gentime.csv]: the cost and the name (or [FAILURE]). *)
Record Line : Type := mkLine {
  cost : np_float;
  label : string
}.

Definition AssertionError (msg : string) : PyExn := mkExn false msg.

Definition IndexError : PyExn := mkExn false "index out of range".

Definition Qlt_bool (a b : Q) : bool := negb (Qle_bool b a).

Section Script.

(** [--onnx_dir] and [--tlimit]. *)
Variable onnx_dir : string.
Variable tlimit : Z.

(** [time_time k] is what the [k]-th call of [time.time()] returns. *)
Variable time_time : nat -> Q.

(** [run_process i from_path to_path] is what lines 139-141 of iteration
    [i] give: the exit code of the conversion process, or an exception
    raised while starting or joining it. *)
Variable run_process : nat -> string -> string -> result (option Z).

Variable file_list : list H5File.
Variable idx : list nat.
Variable time_diffs : list Q.

(** [time_diffs.mean()] for the first model, [time_diffs[i - 1]] after. *)
Definition generation_cost (i : nat) : result np_float :=
  if i =? 0 then Ok (np_mean time_diffs)
  else match nth_error time_diffs (i - 1) with
       | Some d => Ok (Finite d)
       | None => Raise IndexError
       end.

(** Lines 132-163 of iteration [i], [clock] readings of the clock having
    been made before: the line written for the [i]-th model.  Whatever goes
    wrong with the conversion process ends in the handler of line 156,
    which writes the same cost under the name [FAILURE]. *)
Definition convert_one (i clock : nat) : result Line :=
  match nth_error idx i with
  | None => Raise IndexError
  | Some ranked_idx =>
      match nth_error file_list ranked_idx with
      | None => Raise IndexError
      | Some from =>
          let from_path := h5_path from in
          let to_name := (os_path_split_tail from_path ++ ".onnx")%string in
          let to_path := os_path_join onnx_dir to_name in
          let tstart := time_time clock in
          let converted :=
            match run_process i from_path to_path with
            | Ok (Some 0%Z) => true
            | _ => false
            end in
          let cvt_time := (time_time (S clock) - tstart)%Q in
          match generation_cost i with
          | Raise e => Raise e
          | Ok gen =>
              Ok (mkLine (np_add gen cvt_time)
                    (if converted then to_name else "FAILURE"))
          end
      end
  end.

(** Line 166, the clock being read for the [clock]-th time. *)
Definition limit_reached (i clock : nat) : bool :=
  Qlt_bool (inject_Z tlimit)
    (np_sum (firstn i time_diffs) + (time_time clock - time_time 0)).

(** Lines 131-168, for the iterations [todo]; [clock] counts the readings
    of the clock so far, [written] is the content of the file. *)
Fixpoint convert_loop (todo : list nat) (clock : nat) (written : list Line)
    : list Line * result unit :=
  match todo with
  | [] => (written, Ok tt)
  | i :: rest =>
      match convert_one i clock with
      | Raise e => (written, Raise e)
      | Ok line =>
          let written := written ++ [line] in
          if limit_reached i (2 + clock) then (written, Ok tt)
          else convert_loop rest (3 + clock) written
      end
  end.

End Script.

(** Lines 108-118: the modification times, counted from the earliest. *)
Definition time_arr_of (file_list : list H5File) : list Q :=
  match map st_mtime file_list with
  | [] => []
  | t :: ts => map (fun x => (x - np_min t ts)%Q) (t :: ts)
  end.

(** Lines 106-169: what is written to [gentime.csv], and how the script
    ends. *)
Definition main (onnx_dir : string) (tlimit : Z) (time_time : nat -> Q)
    (run_process : nat -> string -> string -> result (option Z))
    (file_list : list H5File) : list Line * result unit :=
  match file_list with
  | [] => ([], Raise (AssertionError "No files found in the folder!"))
  | _ :: _ =>
      let time_arr := time_arr_of file_list in
      let idx := np_argsort time_arr in
      let time_span :=
        (np_max (hd 0%Q time_arr) (tl time_arr)
         - np_min (hd 0%Q time_arr) (tl time_arr))%Q in
      if Qlt_bool (time_span / 3600) 25
      then
        let time_diffs := np_diff (np_sort time_arr) in
        convert_loop onnx_dir tlimit time_time run_process file_list idx
          time_diffs (seq 0 (List.length file_list)) 1 []
      else ([], Raise (AssertionError
              "Are you sure your steps are correct? The time span is too long..."))
  end.

(** ** Vocabulary for statements about the script *)

(** The files in the order in which the loop takes them. *)
Definition generation_order (file_list : list H5File) : list H5File :=
  flat_map (fun j => match nth_error file_list j with
                     | Some f => [f]
                     | None => []
                     end) (np_argsort (time_arr_of file_list)).

(** The earliest modification time ([time_arr.min()] of line 118). *)
Definition earliest (file_list : list H5File) : Q :=
  match map st_mtime file_list with
  | [] => 0%Q
  | t :: ts => np_min t ts
  end.

(** Order of two entries by their keys. *)
Definition key_le {A : Type} (key : A -> Q) (x y : A) : Prop :=
  (key x <= key y)%Q.

(** The name under which a converted model is listed. *)
Definition to_name_of (f : H5File) : string :=
  (os_path_split_tail (h5_path f) ++ ".onnx")%string.

(** ** Small inputs *)

Definition three_files : list H5File :=
  [ mkH5File "out/m2/b.h5" 130; mkH5File "out/m1/a.h5" 100;
    mkH5File "out/m3/c.h5" 190 ].

(** A clock advancing by two seconds at every reading. *)
Definition steady_clock (k : nat) : Q := inject_Z (2 * Z.of_nat k).

(** The conversion of the second model crashes. *)
Definition second_crashes (i : nat) (from to : string)
    : result (option Z) :=
  if i =? 1 then Ok (Some 139%Z) else Ok (Some 0%Z).

Definition small_graph : list Operation :=
  [ mkOperation "import/x" "Placeholder" [];
    mkOperation "import/w" "Const" [];
    mkOperation "import/dense/MatMul" "MatMul" [0; 1];
    mkOperation "import/Identity" "Identity" [2];
    mkOperation "import/_control_node" "NoOp" [];
    mkOperation "import/unused" "Placeholder" [] ].

End Lemon.


(* ------------------------------------------------------------------------- *)
(** * The search loops *)

Section SearchFacts.

Context {NetState : Type} (net : SymbolNet NetState).

Lemma all_invalid_cons (s : NetState) (c : Candidate) (pre : list Candidate) :
  all_invalid net s (c :: pre) =
  match forward net s c with
  | Ok s' => if invalid_found_last net s' then all_invalid net s' pre else None
  | Raise _ => None
  end.
Proof.
  unfold all_invalid; simpl.
  assert (stuck : forall l, fold_left
    (fun (acc : option NetState) (c0 : Candidate) =>
       match acc with
       | None => None
       | Some st =>
           match forward net st c0 with
           | Ok st' => if invalid_found_last net st' then Some st' else None
           | Raise _ => None
           end
       end) l None = None) by (induction l; simpl; auto).
  destruct (forward net s c) as [s'|e]; [|apply stuck].
  destruct (invalid_found_last net s'); [reflexivity|apply stuck].
Qed.

Lemma all_gave_up_cons (use_cuda : bool) (s : NetState) (c : Candidate)
    (pre : list Candidate) :
  all_gave_up net use_cuda s (c :: pre) =
  match grad_input_gen net s c use_cuda with
  | Ok (None, s') => all_gave_up net use_cuda s' pre
  | _ => None
  end.
Proof.
  unfold all_gave_up; simpl.
  assert (stuck : forall l, fold_left
    (fun (acc : option NetState) (c0 : Candidate) =>
       match acc with
       | None => None
       | Some st =>
           match grad_input_gen net st c0 use_cuda with
           | Ok (None, st') => Some st'
           | _ => None
           end
       end) l None = None) by (induction l; simpl; auto).
  destruct (grad_input_gen net s c use_cuda) as [[[x|] s']|e];
    solve [reflexivity | apply stuck].
Qed.

(** The blind loop walks through a prefix of invalid candidates, counting
    and logging each. *)
Lemma v3_loop_skip (pre rest : list Candidate) :
  forall s s1 t called,
    all_invalid net s pre = Some s1 ->
    v3_loop net s (pre ++ rest) t called =
    v3_loop net s1 rest (t + List.length pre) (called ++ pre).
Proof.
  induction pre as [|c pre IH]; intros s s1 t called H.
  - cbn in H. injection H as ->. simpl.
    now rewrite Nat.add_0_r, app_nil_r.
  - rewrite all_invalid_cons in H. simpl.
    destruct (forward net s c) as [s'|e]; [|discriminate].
    destruct (invalid_found_last net s'); [|discriminate]. simpl.
    rewrite (IH _ _ _ _ H). f_equal; [simpl; lia|].
    now rewrite <- app_assoc.
Qed.

Lemma grad_loop_skip (use_cuda : bool) (v3 : Outcome)
    (pre rest : list Candidate) :
  forall s s1 t called,
    all_gave_up net use_cuda s pre = Some s1 ->
    grad_loop net use_cuda v3 s (pre ++ rest) t called =
    grad_loop net use_cuda v3 s1 rest (t + List.length pre) (called ++ pre).
Proof.
  induction pre as [|c pre IH]; intros s s1 t called H.
  - cbn in H. injection H as ->. simpl.
    now rewrite Nat.add_0_r, app_nil_r.
  - rewrite all_gave_up_cons in H. simpl.
    destruct (grad_input_gen net s c use_cuda) as [[[x|] s']|e];
      try discriminate.
    rewrite (IH _ _ _ _ H). f_equal; [simpl; lia|].
    now rewrite <- app_assoc.
Qed.


(** C4. Blind search stops at the first candidate whose forward evaluation
    leaves [invalid_found_last] false: when every candidate before position
    [k = S (length pre)] evaluates as invalid and the [k]-th evaluates as
    valid, the search reports success with [k] attempts and has handed
    exactly the first [k] candidates to the network; when every candidate
    evaluates as invalid it reports failure with as many attempts as there
    are candidates. *)
Theorem v3_search_first_valid (s : NetState) (samples : list Candidate) :
  let s0 := set_check_intermediate_numeric net true s in
  (forall pre c post s1 s2,
      samples = pre ++ c :: post ->
      all_invalid net s0 pre = Some s1 ->
      forward net s1 c = Ok s2 ->
      invalid_found_last net s2 = false ->
      v3_search net s samples =
      Ok (mkV3Run (mkOutcome true (S (List.length pre))) s2 (pre ++ [c])))
  /\ (forall s1,
      all_invalid net s0 samples = Some s1 ->
      v3_search net s samples =
      Ok (mkV3Run (mkOutcome false (List.length samples)) s1 samples)).
Proof.
  intros s0; split.
  - intros pre c post s1 s2 -> Hpre Hfwd Hflag.
    unfold v3_search; fold s0.
    rewrite (v3_loop_skip pre (c :: post) s0 s1 0 [] Hpre).
    simpl. now rewrite Hfwd, Hflag.
  - intros s1 Hall.
    unfold v3_search; fold s0.
    rewrite <- (app_nil_r samples) at 1.
    rewrite (v3_loop_skip samples [] s0 s1 0 [] Hall).
    reflexivity.
Qed.

(** C2. When the gradient search meets the "no grad_fn" RuntimeError at
    attempt [k = S (length pre)] (the earlier calls having returned [None]),
    it stops there, having made exactly [k] calls, and its outcome is the
    outcome the blind search computed before it, whatever [k] is. *)
Theorem grad_search_fallback (use_cuda : bool) (s : NetState)
    (samples pre post : list Candidate) (c : Candidate)
    (run : V3Run NetState) (s1 : NetState) (e : PyExn) :
  v3_search net s samples = Ok run ->
  samples = pre ++ c :: post ->
  all_gave_up net use_cuda (v3_net run) pre = Some s1 ->
  grad_input_gen net s1 c use_cuda = Raise e ->
  is_no_grad e = true ->
  grad_search net use_cuda (v3_outcome run) (v3_net run) samples =
    Ok (mkGradRun (v3_outcome run) (pre ++ [c]))
  /\ both_searches net use_cuda s samples =
    Ok (v3_outcome run, v3_outcome run).
Proof.
  intros Hv3 -> Hpre Hraise Hno.
  apply andb_true_iff in Hno as [Hrt Hmsg].
  assert (Hg : grad_search net use_cuda (v3_outcome run) (v3_net run)
                 (pre ++ c :: post) =
               Ok (mkGradRun (v3_outcome run) (pre ++ [c]))).
  { unfold grad_search.
    rewrite (grad_loop_skip use_cuda _ pre (c :: post) _ s1 0 [] Hpre).
    simpl. rewrite Hraise, Hrt, Hmsg.
    now destruct (v3_outcome run). }
  split; [exact Hg|].
  unfold both_searches. rewrite Hv3. simpl. now rewrite Hg.
Qed.

(** An exception of [grad_input_gen] that is not the "no grad_fn"
    RuntimeError is not turned into an outcome: the gradient search, and with
    it the pair of searches, ends with that very exception. *)
Lemma grad_search_reraises (use_cuda : bool) (s : NetState)
    (samples pre post : list Candidate) (c : Candidate)
    (run : V3Run NetState) (s1 : NetState) (e : PyExn) :
  v3_search net s samples = Ok run ->
  samples = pre ++ c :: post ->
  all_gave_up net use_cuda (v3_net run) pre = Some s1 ->
  grad_input_gen net s1 c use_cuda = Raise e ->
  is_no_grad e = false ->
  grad_search net use_cuda (v3_outcome run) (v3_net run) samples = Raise e
  /\ both_searches net use_cuda s samples = Raise e.
Proof.
  intros Hv3 -> Hpre Hraise Hno.
  assert (Hg : grad_search net use_cuda (v3_outcome run) (v3_net run)
                 (pre ++ c :: post) = Raise e).
  { unfold grad_search.
    rewrite (grad_loop_skip use_cuda _ pre (c :: post) _ s1 0 [] Hpre).
    simpl. rewrite Hraise.
    unfold is_no_grad in Hno.
    destruct (isinstance_RuntimeError e); [|reflexivity].
    simpl in Hno. now rewrite Hno. }
  split; [exact Hg|].
  unfold both_searches. rewrite Hv3. simpl. now rewrite Hg.
Qed.

(** C7. When [grad_input_gen] returns [None] for every candidate, the
    gradient search reports failure with as many attempts as there are
    candidates. *)
Theorem grad_search_exhausted (use_cuda : bool) (v3 : Outcome)
    (s s1 : NetState) (samples : list Candidate) :
  all_gave_up net use_cuda s samples = Some s1 ->
  grad_search net use_cuda v3 s samples =
    Ok (mkGradRun (mkOutcome false (List.length samples)) samples).
Proof.
  intros Hall. unfold grad_search.
  rewrite <- (app_nil_r samples) at 1.
  rewrite (grad_loop_skip use_cuda v3 samples [] s s1 0 [] Hall).
  reflexivity.
Qed.


Lemma v3_loop_counts (samples : list Candidate) :
  forall s t called run,
    v3_loop net s samples t called = Ok run ->
    t <= try_times (v3_outcome run) <= t + List.length samples
    /\ (samples <> [] -> t < try_times (v3_outcome run))
    /\ try_times (v3_outcome run) + List.length called =
       t + List.length (v3_called run).
Proof.
  induction samples as [|c rest IH]; intros s t called run H; simpl in H.
  - injection H as <-. simpl. repeat split; try lia. congruence.
  - destruct (forward net s c) as [s'|e]; [|discriminate].
    destruct (invalid_found_last net s'); simpl in H.
    + apply IH in H as (Hb & _ & Hc).
      rewrite length_app in Hc. simpl in *. repeat split; lia.
    + injection H as <-. simpl. rewrite length_app. simpl.
      repeat split; lia.
Qed.

Lemma grad_loop_counts (use_cuda : bool) (v3 : Outcome)
    (samples : list Candidate) :
  forall s t called g,
    grad_loop net use_cuda v3 s samples t called = Ok g ->
    grad_outcome g = v3
    \/ (t <= try_times (grad_outcome g) <= t + List.length samples
        /\ (samples <> [] -> t < try_times (grad_outcome g))
        /\ try_times (grad_outcome g) + List.length called =
           t + List.length (grad_called g)).
Proof.
  induction samples as [|c rest IH]; intros s t called g H; simpl in H.
  - injection H as <-. right. simpl. repeat split; try lia. congruence.
  - destruct (grad_input_gen net s c use_cuda) as [[[x|] s']|e].
    + injection H as <-. right. simpl. rewrite length_app. simpl.
      repeat split; lia.
    + apply IH in H as [H|(Hb & _ & Hc)]; [now left|right].
      rewrite length_app in Hc. simpl in *. repeat split; lia.
    + destruct (isinstance_RuntimeError e); [|discriminate].
      destruct (contains NO_GRAD_FN (exn_str e)); [|discriminate].
      injection H as <-. left. simpl. now destruct v3.
Qed.

(** C10. With at least one candidate, both recorded attempt counts lie
    between 1 and the number of candidates.  The blind counter equals the
    number of candidates handed to the network; so does the gradient counter
    unless the fall back replaced the gradient outcome by the blind one. *)
Theorem try_times_within_bounds (use_cuda : bool) (s : NetState)
    (samples : list Candidate) (run : V3Run NetState) (g : GradRun) :
  samples <> [] ->
  v3_search net s samples = Ok run ->
  grad_search net use_cuda (v3_outcome run) (v3_net run) samples = Ok g ->
  (1 <= try_times (v3_outcome run) <= List.length samples
   /\ try_times (v3_outcome run) = List.length (v3_called run))
  /\ (1 <= try_times (grad_outcome g) <= List.length samples
      /\ (try_times (grad_outcome g) = List.length (grad_called g)
          \/ grad_outcome g = v3_outcome run)).
Proof.
  intros Hne Hv3 Hg.
  apply v3_loop_counts in Hv3 as (Hb & Hpos & Hc).
  specialize (Hpos Hne). simpl in *.
  split; [repeat split; lia|].
  apply grad_loop_counts in Hg as [Heq|(Hb' & Hpos' & Hc')].
  - rewrite Heq. repeat split; try lia. now right.
  - specialize (Hpos' Hne). simpl in *. repeat split; lia.
Qed.

Lemma v3_loop_replay (Hpure : forward_pure net) (samples : list Candidate) :
  forall s1 s2 t called1 called2,
    checking net s1 -> checking net s2 ->
    reported (v3_loop net s1 samples t called1) =
    reported (v3_loop net s2 samples t called2).
Proof.
  induction samples as [|c rest IH]; intros s1 s2 t called1 called2 H1 H2.
  - reflexivity.
  - simpl. pose proof (Hpure s1 s2 c H1 H2) as Hobs.
    destruct (forward net s1 c) as [u1|e1] eqn:E1,
             (forward net s2 c) as [u2|e2] eqn:E2;
      simpl in Hobs; try discriminate.
    + injection Hobs as Hflag. rewrite <- Hflag.
      destruct (invalid_found_last net u1); simpl.
      * apply IH;
          [ exact (checking_forward net _ _ _ H1 E1)
          | exact (checking_forward net _ _ _ H2 E2) ].
      * reflexivity.
    + now injection Hobs as ->.
Qed.

(** C8. When forward evaluation is pure, the blind search reports the same
    success flag and attempt count (or lets the same exception through) from
    whatever state of the network object it is started, in particular when
    it is replayed on the object a first run has left behind. *)
Theorem v3_search_deterministic (samples : list Candidate)
    (s1 s2 : NetState) :
  forward_pure net ->
  reported (v3_search net s1 samples) = reported (v3_search net s2 samples).
Proof.
  intros Hpure. unfold v3_search.
  apply v3_loop_replay; auto using checking_enabled.
Qed.




End SearchFacts.


(* ------------------------------------------------------------------------- *)
(** * The sampler *)

Lemma init_tensors_for_spec (v interval : Q) (shapes : list Shape) :
  forall g cand g',
    init_tensors_for g v interval shapes = (cand, g') ->
    draw g' = draw g
    /\ consumed g' = consumed g + draws_per_candidate shapes
    /\ map shape cand = shapes
    /\ elements cand =
       map (fun p => (v + draw g p * interval)%Q)
         (seq (consumed g) (draws_per_candidate shapes)).
Proof.
  induction shapes as [|sh rest IH]; intros g cand g' H; simpl in H.
  - injection H as <- <-. unfold draws_per_candidate. simpl.
    repeat split; auto.
  - destruct (init_tensors_for
                (mkGenerator (draw g) (consumed g + numel sh)) v interval rest)
      as [ts g2] eqn:E.
    injection H as <- <-.
    apply IH in E as (Hd & Hc & Hs & He). simpl in *.
    unfold draws_per_candidate in *. simpl.
    repeat split; auto.
    + lia.
    + now rewrite Hs.
    + unfold elements in *. simpl. rewrite He, seq_app, map_app.
      now rewrite !map_map.
Qed.

Lemma sample_loop_spec (interval : Q) (shapes : list Shape)
    (centers : list Q) :
  forall g samples g',
    sample_loop g interval shapes centers = (samples, g') ->
    List.length samples = List.length centers
    /\ forall j v cand,
        nth_error centers j = Some v ->
        nth_error samples j = Some cand ->
        map shape cand = shapes
        /\ elements cand =
           map (fun p => (v + draw g p * interval)%Q)
             (seq (consumed g + j * draws_per_candidate shapes)
                (draws_per_candidate shapes)).
Proof.
  induction centers as [|v0 rest IH]; intros g samples g' H; simpl in H.
  - injection H as <- <-. split; [reflexivity|].
    intros [|j] v cand Hv; discriminate.
  - destruct (init_tensors_for g v0 interval shapes) as [c0 g1] eqn:E0.
    destruct (sample_loop g1 interval shapes rest) as [cs g2] eqn:E1.
    injection H as <- <-.
    apply init_tensors_for_spec in E0 as (Hd & Hc & Hs & He).
    apply IH in E1 as [Hlen Hnth].
    split; [simpl; now rewrite Hlen|].
    intros [|j] v cand Hv Hcand; simpl in Hv, Hcand.
    + injection Hv as <-. injection Hcand as <-.
      split; [exact Hs|]. now rewrite Nat.add_0_r.
    + destruct (Hnth j v cand Hv Hcand) as [Hs' He'].
      split; [exact Hs'|].
      rewrite He', Hd, Hc. f_equal. f_equal. simpl. lia.
Qed.



Lemma set_last_snoc (l : list Q) (x stop : Q) :
  Numpy.set_last (l ++ [x]) stop = l ++ [stop].
Proof.
  unfold Numpy.set_last.
  destruct (l ++ [x]) eqn:E.
  - now destruct l.
  - now rewrite <- E, removelast_last.
Qed.

(** The grid of [np.linspace(-1, 1, n)] for [n >= 2], in closed form. *)
Lemma sweep_centers_ge2 (n : Z) :
  (2 <= n)%Z ->
  sweep_centers n =
  Ok (map (fun i => (inject_Z (Z.of_nat i) * ((1 - -1) / inject_Z (n - 1))
                     + -1)%Q)
        (seq 0 (Z.to_nat (n - 1))) ++ [1%Q]).
Proof.
  intros Hn. unfold sweep_centers, Numpy.linspace.
  replace (n <? 0)%Z with false by (symmetry; apply Z.ltb_ge; lia).
  replace (0 <? n - 1)%Z with true by (symmetry; apply Z.ltb_lt; lia).
  replace (1 <? n)%Z with true by (symmetry; apply Z.ltb_lt; lia).
  destruct (Qeq_bool ((1 - -1) / inject_Z (n - 1)) 0) eqn:E.
  - exfalso. apply Qeq_bool_eq in E.
    assert (Hnz : ~ (inject_Z (n - 1) == 0)%Q).
    { change 0%Q with (inject_Z 0). rewrite inject_Z_injective. lia. }
    assert (H2 : ((1 - -1) / inject_Z (n - 1) * inject_Z (n - 1) == 2)%Q)
      by (field; exact Hnz).
    rewrite E, Qmult_0_l in H2. discriminate.
  - replace (Z.to_nat n) with (S (Z.to_nat (n - 1))) by lia.
    unfold Numpy.arange. rewrite seq_S, !map_app. simpl.
    rewrite set_last_snoc, !map_map. reflexivity.
Qed.




(** For [n_step >= 1] the sampler returns: it is the sweep loop run over the
    grid with [interval = 1 / n_step]. *)
Lemma init_tensor_samples_runs (g : Generator) (n_step : Z)
    (shapes : list Shape) :
  (1 <= n_step)%Z ->
  exists centers samples g',
    sweep_centers n_step = Ok centers
    /\ List.length centers = Z.to_nat n_step
    /\ init_tensor_samples g n_step shapes = Ok (samples, g')
    /\ sample_loop g (1 / inject_Z n_step) shapes centers = (samples, g').
Proof.
  intros Hn.
  assert (Hc : exists centers, sweep_centers n_step = Ok centers
                 /\ List.length centers = Z.to_nat n_step).
  { destruct (Z.eq_dec n_step 1) as [->|Hne].
    - exists [(-1)%Q]. split; reflexivity.
    - assert (H2 : (2 <= n_step)%Z) by lia.
      eexists. split; [apply (sweep_centers_ge2 n_step H2)|].
      rewrite length_app, length_map, length_seq. simpl. lia. }
  destruct Hc as (centers & Hc & Hlen).
  destruct (sample_loop g (1 / inject_Z n_step) shapes centers)
    as [samples g'] eqn:E.
  exists centers, samples, g'. repeat split; auto.
  unfold init_tensor_samples, true_div_1.
  replace (n_step =? 0)%Z with false by (symmetry; apply Z.eqb_neq; lia).
  simpl. unfold sweep_centers in Hc. rewrite Hc. simpl. now rewrite E.
Qed.







(* ------------------------------------------------------------------------- *)
(** * The harness *)

Section HarnessFacts.

Context {NetState : Type} (net : SymbolNet NetState).
Variable time_time : nat -> Q.
Variable new_model : nat -> result (Z * NetState).
Variable args : Args.

Local Abbreviation body := (iteration net time_time new_model args).
Local Abbreviation loop := (models_loop net time_time new_model args).
Local Abbreviation script := (main net time_time new_model args).

Lemma extend_results_nil (r : Results) :
  extend_results r empty_results = r.
Proof. destruct r. unfold extend_results. simpl. now rewrite !app_nil_r. Qed.



(** What one iteration does to the machine: it never touches the written
    file, it extends each column by at most one entry, by exactly one when it
    completes, and it leaves the three gradient columns alone when an
    exception escapes. *)
Lemma iteration_delta (i : nat) (m : Machine) :
  exists d,
    results (fst (body i m)) = extend_results (results m) d
    /\ csv (fst (body i m)) = csv m
    /\ match snd (body i m) with
       | Ok _ => has_rows 1 d
       | Raise _ =>
           Forall (fun n => n <= 1) (column_lengths d)
           /\ grad_time d = [] /\ grad_try d = [] /\ grad_succ d = []
       end.
Proof.
  destruct m as [r g n f].
  unfold iteration, mbind, lift, update_results, sample, time_call. simpl.
  destruct (new_model i) as [[seed s]|e]; simpl.
  2:{ exists empty_results. rewrite extend_results_nil.
      repeat split; auto. unfold column_lengths; simpl.
      repeat constructor. }
  destruct (init_tensor_samples g (n_inp_sample args) (input_info net s))
    as [[samples g']|e]; simpl.
  2:{ exists (mkResults [seed] [graph_nodes net s] [] [] [] [] [] []).
      destruct r; unfold extend_results; simpl. rewrite !app_nil_r.
      repeat split; auto. unfold column_lengths; simpl.
      repeat constructor. }
  destruct (v3_search net s samples) as [v3|e]; simpl.
  2:{ exists (mkResults [seed] [graph_nodes net s] [] [] [] [] [] []).
      destruct r; unfold extend_results; simpl. rewrite !app_nil_r.
      repeat split; auto. unfold column_lengths; simpl.
      repeat constructor. }
  destruct (grad_search net (use_cuda args) (v3_outcome v3) (v3_net v3)
              samples) as [gr|e]; simpl.
  - exists (mkResults [seed] [graph_nodes net s]
              [(time_time (S n) - time_time n)%Q]
              [try_times (v3_outcome v3)] [succ (v3_outcome v3)]
              [(time_time (S (S (S n))) - time_time (S (S n)))%Q]
              [try_times (grad_outcome gr)] [succ (grad_outcome gr)]).
    destruct r; unfold extend_results; simpl. repeat split; auto.
  - exists (mkResults [seed] [graph_nodes net s]
              [(time_time (S n) - time_time n)%Q]
              [try_times (v3_outcome v3)] [succ (v3_outcome v3)] [] [] []).
    destruct r; unfold extend_results; simpl. rewrite !app_nil_r.
    repeat split; auto. unfold column_lengths; simpl.
    repeat constructor.
Qed.

Lemma has_rows_extend (k : nat) (r d : Results) :
  has_rows k r -> has_rows 1 d -> has_rows (S k) (extend_results r d).
Proof.
  unfold has_rows, column_lengths, extend_results. simpl.
  intros H H'. injection H as G1 G2 G3 G4 G5 G6 G7 G8.
  injection H' as H1 H2 H3 H4 H5 H6 H7 H8.
  rewrite !length_app, G1, G2, G3, G4, G5, G6, G7, G8,
    H1, H2, H3, H4, H5, H6, H7, H8.
  now rewrite !Nat.add_1_r.
Qed.


Lemma for_each_app (a b : list nat) (f : nat -> M unit) (m : Machine) :
  for_each (a ++ b) f m = (for_each a f ;;; for_each b f) m.
Proof.
  revert m. induction a as [|i a IH]; intros m; simpl.
  - reflexivity.
  - unfold mbind in *. destruct (f i m) as [m1 [[]|e]]; [|reflexivity].
    apply IH.
Qed.

Lemma loop_csv (idx : list nat) :
  forall m, csv (fst (loop idx m)) = csv m.
Proof.
  unfold models_loop.
  induction idx as [|i idx IH]; intros m; simpl; [reflexivity|].
  destruct (iteration_delta i m) as (d & _ & Hcsv & _).
  unfold mbind. destruct (body i m) as [m1 [[]|e]]; simpl in *.
  - now rewrite IH.
  - exact Hcsv.
Qed.


Lemma loop_rows (idx : list nat) :
  forall m m' k,
    loop idx m = (m', Ok tt) ->
    has_rows k (results m) ->
    has_rows (k + List.length idx) (results m').
Proof.
  unfold models_loop.
  induction idx as [|i idx IH]; intros m m' k H Hk; simpl in H.
  - injection H as <-. now rewrite Nat.add_0_r.
  - destruct (iteration_delta i m) as (d & Hd & _ & Hr).
    unfold mbind in H. destruct (body i m) as [m1 [[]|e]]; simpl in *.
    + replace (k + S (List.length idx)) with (S k + List.length idx) by lia.
      apply (IH m1 m' (S k) H). rewrite Hd. now apply has_rows_extend.
    + discriminate.
Qed.

Lemma iteration_abort (k : nat) (m : Machine) (seed : Z) (s : NetState)
    (samples : list Candidate) (g1 : Generator) (e : PyExn) :
  new_model k = Ok (seed, s) ->
  init_tensor_samples (torch_rng m) (n_inp_sample args) (input_info net s)
    = Ok (samples, g1) ->
  both_searches net (use_cuda args) s samples = Raise e ->
  snd (body k m) = Raise e.
Proof.
  intros Hm Hs Hb. destruct m as [r g n f]. simpl in Hs.
  unfold iteration, mbind, lift, update_results, sample, time_call. simpl.
  rewrite Hm. simpl. rewrite Hs. simpl.
  unfold both_searches in Hb.
  destruct (v3_search net s samples) as [v3|e1]; simpl in *.
  - destruct (grad_search net (use_cuda args) (v3_outcome v3) (v3_net v3)
                samples) as [gr|e2]; simpl in *; [discriminate|congruence].
  - congruence.
Qed.

(** An exception that escapes the searches on model [k] ends the script:
    the machine is left as the interrupted iteration left it. *)
Lemma script_aborts (g : Generator) (k : nat) (m_k : Machine) (seed : Z)
    (s : NetState) (samples : list Candidate) (g1 : Generator) (e : PyExn) :
  k < Z.to_nat (n_model args) ->
  loop (seq 0 k) (boot g) = (m_k, Ok tt) ->
  new_model k = Ok (seed, s) ->
  init_tensor_samples (torch_rng m_k) (n_inp_sample args)
    (input_info net s) = Ok (samples, g1) ->
  both_searches net (use_cuda args) s samples = Raise e ->
  script g = (fst (body k m_k), Raise e).
Proof.
  intros Hk Hloop Hm Hs Hb.
  pose proof (iteration_abort k m_k seed s samples g1 e Hm Hs Hb) as Habort.
  unfold main. fold (boot g).
  replace (seq 0 (Z.to_nat (n_model args)))
    with (seq 0 k ++ k :: seq (S k) (Z.to_nat (n_model args) - S k)).
  2:{ change (k :: seq (S k) (Z.to_nat (n_model args) - S k))
        with (seq k (S (Z.to_nat (n_model args) - S k))).
      rewrite <- seq_app. f_equal. lia. }
  unfold models_loop, mbind. rewrite for_each_app.
  unfold mbind. fold (loop (seq 0 k) (boot g)). rewrite Hloop.
  simpl. unfold mbind.
  destruct (body k m_k) as [m1 r1]. simpl in Habort. now rewrite Habort.
Qed.

(** C6. When [grad_input_gen] raises, at some attempt of the gradient search
    on model [k], an exception that is not the "no grad_fn" RuntimeError,
    no outcome is recorded and no fall back happens: the gradient search,
    the pair of searches and the whole script end with that very
    exception. *)
Theorem unexpected_grad_error_propagates (g : Generator) (k : nat)
    (m_k : Machine) (seed : Z) (s : NetState)
    (samples pre post : list Candidate) (c : Candidate) (g1 : Generator)
    (run : V3Run NetState) (s1 : NetState) (e : PyExn) :
  k < Z.to_nat (n_model args) ->
  loop (seq 0 k) (boot g) = (m_k, Ok tt) ->
  new_model k = Ok (seed, s) ->
  init_tensor_samples (torch_rng m_k) (n_inp_sample args)
    (input_info net s) = Ok (samples, g1) ->
  v3_search net s samples = Ok run ->
  samples = pre ++ c :: post ->
  all_gave_up net (use_cuda args) (v3_net run) pre = Some s1 ->
  grad_input_gen net s1 c (use_cuda args) = Raise e ->
  is_no_grad e = false ->
  grad_search net (use_cuda args) (v3_outcome run) (v3_net run) samples
    = Raise e
  /\ both_searches net (use_cuda args) s samples = Raise e
  /\ snd (script g) = Raise e
  /\ grad_try (results (fst (script g))) = grad_try (results m_k)
  /\ grad_succ (results (fst (script g))) = grad_succ (results m_k).
Proof.
  intros Hk Hloop Hm Hs Hv3 Hsplit Hpre Hraise Hno.
  destruct (grad_search_reraises net (use_cuda args) s samples pre post c
              run s1 e Hv3 Hsplit Hpre Hraise Hno) as [Hg Hb].
  split; [exact Hg|]. split; [exact Hb|].
  rewrite (script_aborts g k m_k seed s samples g1 e Hk Hloop Hm Hs Hb).
  simpl. split; [reflexivity|].
  pose proof (iteration_abort k m_k seed s samples g1 e Hm Hs Hb) as Habort.
  destruct (iteration_delta k m_k) as (d & Hd & _ & Hr).
  rewrite Habort in Hr. destruct Hr as (_ & _ & Hgt & Hgs).
  rewrite Hd. unfold extend_results. simpl.
  now rewrite Hgt, Hgs, !app_nil_r.
Qed.


End HarnessFacts.

(* ------------------------------------------------------------------------- *)
(** * The theorems at concrete networks *)

Module Witnesses.
Import Toy.

Lemma v3_search_first_valid_witness :
  (all_invalid toy_net (mkState Refining true false) [scalar (-1)]
     = Some (mkState Refining true true)
   /\ forward toy_net (mkState Refining true true) (scalar (1 # 4))
      = Ok (mkState Refining true false)
   /\ v3_search toy_net (fresh Refining)
        ([scalar (-1)] ++ scalar (1 # 4) :: [scalar 1])
      = Ok (mkV3Run (mkOutcome true 2) (mkState Refining true false)
              ([scalar (-1)] ++ [scalar (1 # 4)])))
  /\ (all_invalid toy_net (mkState Refining true false)
        [scalar (-1); scalar (- (1 # 2))]
      = Some (mkState Refining true true)
      /\ v3_search toy_net (fresh Refining) [scalar (-1); scalar (- (1 # 2))]
         = Ok (mkV3Run (mkOutcome false 2) (mkState Refining true true)
                 [scalar (-1); scalar (- (1 # 2))])).
Proof.
  split.
  - split; [reflexivity|]. split; [reflexivity|].
    pose proof (v3_search_first_valid toy_net (fresh Refining)
                  ([scalar (-1)] ++ scalar (1 # 4) :: [scalar 1])) as H.
    cbv zeta in H. destruct H as [H _].
    apply (H [scalar (-1)] (scalar (1 # 4)) [scalar 1]
             (mkState Refining true true) (mkState Refining true false));
      reflexivity.
  - split; [reflexivity|].
    pose proof (v3_search_first_valid toy_net (fresh Refining)
                  [scalar (-1); scalar (- (1 # 2))]) as H.
    cbv zeta in H. destruct H as [_ H].
    apply (H (mkState Refining true true)). reflexivity.
Defined.

(** The fall back at the second attempt, the blind search having succeeded
    at the first. *)
Lemma grad_search_fallback_witness :
  let samples := [scalar (1 # 4)] ++ scalar 1 :: [scalar 2] in
  let run := mkV3Run (mkOutcome true 1) (mkState LateNoGradFn true false)
               [scalar (1 # 4)] in
  v3_search toy_net (fresh LateNoGradFn) samples = Ok run
  /\ all_gave_up toy_net false (v3_net run) [scalar (1 # 4)]
     = Some (mkState LateNoGradFn true true)
  /\ grad_input_gen toy_net (mkState LateNoGradFn true true) (scalar 1) false
     = Raise no_grad_fn_error
  /\ is_no_grad no_grad_fn_error = true
  /\ grad_search toy_net false (v3_outcome run) (v3_net run) samples
     = Ok (mkGradRun (mkOutcome true 1) ([scalar (1 # 4)] ++ [scalar 1]))
  /\ both_searches toy_net false (fresh LateNoGradFn) samples
     = Ok (mkOutcome true 1, mkOutcome true 1).
Proof.
  intros samples run.
  split; [reflexivity|]. split; [reflexivity|]. split; [reflexivity|].
  split; [reflexivity|].
  apply (grad_search_fallback toy_net false (fresh LateNoGradFn) samples
           [scalar (1 # 4)] [scalar 2] (scalar 1) run
           (mkState LateNoGradFn true true) no_grad_fn_error);
    reflexivity.
Defined.

Lemma grad_search_exhausted_witness :
  let samples := [scalar (-1); scalar 0; scalar (1 # 4)] in
  all_gave_up toy_net false (fresh Stubborn) samples
    = Some (mkState Stubborn true true)
  /\ grad_search toy_net false (mkOutcome true 2) (fresh Stubborn) samples
     = Ok (mkGradRun (mkOutcome false 3) samples).
Proof.
  intros samples. split; [reflexivity|].
  apply (grad_search_exhausted toy_net false (mkOutcome true 2)
           (fresh Stubborn) (mkState Stubborn true true) samples).
  reflexivity.
Defined.

Lemma try_times_within_bounds_witness :
  let samples := [scalar (-1); scalar (- (1 # 4)); scalar 1] in
  let run := mkV3Run (mkOutcome true 3) (mkState Refining true false)
               samples in
  let g := mkGradRun (mkOutcome true 2) [scalar (-1); scalar (- (1 # 4))] in
  samples <> []
  /\ v3_search toy_net (fresh Refining) samples = Ok run
  /\ grad_search toy_net false (v3_outcome run) (v3_net run) samples = Ok g
  /\ (1 <= try_times (v3_outcome run) <= List.length samples
      /\ try_times (v3_outcome run) = List.length (v3_called run))
  /\ (1 <= try_times (grad_outcome g) <= List.length samples
      /\ (try_times (grad_outcome g) = List.length (grad_called g)
          \/ grad_outcome g = v3_outcome run)).
Proof.
  intros samples run g.
  split; [discriminate|]. split; [reflexivity|]. split; [reflexivity|].
  apply (try_times_within_bounds toy_net false (fresh Refining) samples run g);
    [discriminate|reflexivity|reflexivity].
Defined.


Lemma toy_checking (s : State) :
  checking toy_net s -> check_intermediate_numeric s = true.
Proof.
  induction 1 as [s|s s' c _ IH Hf]; [reflexivity|].
  simpl in Hf. unfold toy_forward in Hf. injection Hf as <-. exact IH.
Qed.


Lemma toy_forward_pure : forward_pure toy_net.
Proof.
  intros s s' c Hs Hs'. simpl. unfold toy_forward. simpl.
  now rewrite (toy_checking s Hs), (toy_checking s' Hs').
Qed.



(** Replaying the blind search on the object a first run (of another
    kind of network, left with its flag set) has used. *)
Lemma v3_search_deterministic_witness :
  let samples := [scalar (-1); scalar (1 # 4); scalar 1] in
  forward_pure toy_net
  /\ reported (v3_search toy_net (fresh Refining) samples)
     = Ok (mkOutcome true 2)
  /\ reported (v3_search toy_net (fresh Refining) samples)
     = reported (v3_search toy_net (mkState NoGradFn true true) samples).
Proof.
  intros samples. split; [exact toy_forward_pure|].
  split; [reflexivity|].
  apply (v3_search_deterministic toy_net samples (fresh Refining)
           (mkState NoGradFn true true) toy_forward_pure).
Defined.








(** The same run, followed from the call of [grad_input_gen] that raises. *)
Lemma unexpected_grad_error_propagates_witness :
  let script := main toy_net toy_clock two_models toy_args quarter_rng in
  let m1 := fst (models_loop toy_net toy_clock two_models toy_args
                   (seq 0 1) (boot quarter_rng)) in
  let e := mkExn true "CUDA out of memory" in
  is_no_grad e = false
  /\ grad_input_gen toy_net (mkState OutOfMemory true false)
       [mkTensor [1; 2] [(-8 # 8)%Q; (-7 # 8)%Q]] (use_cuda toy_args)
     = Raise e
  /\ snd script = Raise e
  /\ grad_try (results (fst script)) = grad_try (results m1)
  /\ grad_succ (results (fst script)) = grad_succ (results m1).
Proof.
  intros script m1 e.
  split; [reflexivity|]. split; [reflexivity|].
  refine (proj2 (proj2
    (unexpected_grad_error_propagates toy_net toy_clock two_models toy_args
       quarter_rng 1 m1 22%Z (fresh OutOfMemory)
       ([] ++ [mkTensor [1; 2] [(-8 # 8)%Q; (-7 # 8)%Q]]
           :: [[mkTensor [1; 2] [(10 # 8)%Q; (11 # 8)%Q]]])
       [] [[mkTensor [1; 2] [(10 # 8)%Q; (11 # 8)%Q]]]
       [mkTensor [1; 2] [(-8 # 8)%Q; (-7 # 8)%Q]]
       (mkGenerator (draw quarter_rng) 8)
       (mkV3Run (mkOutcome true 2) (mkState OutOfMemory true false)
          [[mkTensor [1; 2] [(-8 # 8)%Q; (-7 # 8)%Q]];
           [mkTensor [1; 2] [(10 # 8)%Q; (11 # 8)%Q]]])
       (mkState OutOfMemory true false) e _ _ _ _ _ _ _ _ _))).
  - vm_compute; lia.
  - vm_compute; reflexivity.
  - reflexivity.
  - vm_compute; reflexivity.
  - vm_compute; reflexivity.
  - reflexivity.
  - reflexivity.
  - reflexivity.
  - reflexivity.
Defined.

(** ** The scenarios of the specification *)

(** Four candidates, the second being the first that forward evaluation
    accepts; the gradient search converges on the first. *)
Example scenario_gradient_converges_first :
  both_searches toy_net false (fresh Refining)
    [scalar (- (1 # 4)); scalar (1 # 4); scalar 1; scalar 2]
  = Ok (mkOutcome true 2, mkOutcome true 1).
Proof. reflexivity. Qed.

(** No gradient anywhere, the blind search succeeding at attempt 3 of 5. *)
Example scenario_no_gradient :
  both_searches toy_net false (fresh NoGradFn)
    [scalar (-3); scalar (-2); scalar 1; scalar 2; scalar 3]
  = Ok (mkOutcome true 3, mkOutcome true 3).
Proof. reflexivity. Qed.

(** Five candidates, none valid for either search. *)
Example scenario_nothing_valid :
  both_searches toy_net false (fresh Stubborn)
    [scalar (-5); scalar (-4); scalar (-3); scalar (-2); scalar (-1)]
  = Ok (mkOutcome false 5, mkOutcome false 5).
Proof. reflexivity. Qed.

(** The "no grad_fn" text in an exception that is not a RuntimeError is not
    caught. *)
Example scenario_other_exception_class :
  both_searches toy_net false (fresh Misreported) [scalar 1]
  = Raise (mkExn false
      "element 0 of tensors does not require grad and does not have a grad_fn").
Proof. reflexivity. Qed.

(** A run that completes writes the table, named after the arguments. *)
Example scenario_completed_run :
  let run := main toy_net toy_clock (fun _ => Ok (5%Z, fresh Refining))
               toy_args quarter_rng in
  snd run = Ok tt
  /\ csv (fst run) =
     Some ("r7-model2-node25-inp-search.csv"%string,
           mkResults [5%Z; 5%Z] [3; 3] [1%Q; 1%Q] [2; 2] [true; true]
             [1%Q; 1%Q] [2; 2] [true; true]).
Proof. split; reflexivity. Qed.

(** What the table holds when the second of two models aborts: its seed,
    node count and blind-search entries are there, its gradient entries are
    not. *)
Example scenario_aborted_run :
  let run := main toy_net toy_clock two_models toy_args quarter_rng in
  results (fst run) =
    mkResults [11%Z; 22%Z] [3; 3] [1%Q; 1%Q] [2; 2] [true; true]
      [1%Q] [2] [true]
  /\ csv (fst run) = None.
Proof. split; reflexivity. Qed.

End Witnesses.


(* ------------------------------------------------------------------------- *)
(** * Further properties of the search loops *)

Section SearchOutcomes.

Context {NetState : Type} (net : SymbolNet NetState).

(** How the blind loop can end, read off its result. *)
Lemma v3_loop_inversion (samples : list Candidate) :
  forall s t called,
    match v3_loop net s samples t called with
    | Ok run =>
        t <= try_times (v3_outcome run)
        /\ v3_called run =
           called ++ firstn (try_times (v3_outcome run) - t) samples
        /\ if succ (v3_outcome run)
           then exists pre c post s1,
               samples = pre ++ c :: post
               /\ all_invalid net s pre = Some s1
               /\ forward net s1 c = Ok (v3_net run)
               /\ invalid_found_last net (v3_net run) = false
               /\ try_times (v3_outcome run) = t + S (List.length pre)
           else all_invalid net s samples = Some (v3_net run)
                /\ try_times (v3_outcome run) = t + List.length samples
    | Raise e =>
        exists pre c post s1,
          samples = pre ++ c :: post
          /\ all_invalid net s pre = Some s1
          /\ forward net s1 c = Raise e
    end.
Proof.
  induction samples as [|c rest IH]; intros s t called;
    cbn [v3_loop].
  - cbn. rewrite Nat.sub_diag. simpl. rewrite app_nil_r.
    repeat split; auto.
  - destruct (forward net s c) as [s'|e] eqn:Hf.
    + destruct (invalid_found_last net s') eqn:Hflag;
        cbn [negb v3_outcome v3_called v3_net try_times succ].
      * specialize (IH s' (S t) (called ++ [c])).
        destruct (v3_loop net s' rest (S t) (called ++ [c])) as [run|e].
        -- destruct IH as (Hle & Hcalled & Hend).
           split; [lia|]. split.
           { rewrite Hcalled, <- app_assoc. simpl.
             replace (try_times (v3_outcome run) - t)
               with (S (try_times (v3_outcome run) - S t)) by lia.
             reflexivity. }
           destruct (succ (v3_outcome run)).
           ++ destruct Hend as (pre & c' & post & s1 & -> & Hpre & H1 & H2 & H3).
              exists (c :: pre), c', post, s1.
              rewrite all_invalid_cons, Hf, Hflag. simpl.
              repeat split; auto. lia.
           ++ destruct Hend as [Hall Htry].
              rewrite all_invalid_cons, Hf, Hflag. split; [exact Hall|simpl; lia].
        -- destruct IH as (pre & c' & post & s1 & -> & Hpre & H1).
           exists (c :: pre), c', post, s1.
           rewrite all_invalid_cons, Hf, Hflag. simpl. repeat split; auto.
      * split; [lia|]. split.
        { replace (S t - t) with 1 by lia. reflexivity. }
        exists [], c, rest, s. cbn. repeat split; auto. lia.
    + exists [], c, rest, s. cbn. repeat split; auto.
Qed.

(** How the gradient loop can end, read off its result. *)
Lemma grad_loop_inversion (use_cuda : bool) (v3 : Outcome)
    (samples : list Candidate) :
  forall s t called,
    match grad_loop net use_cuda v3 s samples t called with
    | Ok g =>
        (exists s1,
            all_gave_up net use_cuda s samples = Some s1
            /\ grad_outcome g = mkOutcome false (t + List.length samples)
            /\ grad_called g = called ++ samples)
        \/ (exists pre c post s1 x s2,
               samples = pre ++ c :: post
               /\ all_gave_up net use_cuda s pre = Some s1
               /\ grad_input_gen net s1 c use_cuda = Ok (Some x, s2)
               /\ grad_outcome g = mkOutcome true (t + S (List.length pre))
               /\ grad_called g = called ++ pre ++ [c])
        \/ (exists pre c post s1 e,
               samples = pre ++ c :: post
               /\ all_gave_up net use_cuda s pre = Some s1
               /\ grad_input_gen net s1 c use_cuda = Raise e
               /\ is_no_grad e = true
               /\ grad_outcome g = v3
               /\ grad_called g = called ++ pre ++ [c])
    | Raise e =>
        exists pre c post s1,
          samples = pre ++ c :: post
          /\ all_gave_up net use_cuda s pre = Some s1
          /\ grad_input_gen net s1 c use_cuda = Raise e
          /\ is_no_grad e = false
    end.
Proof.
  induction samples as [|c rest IH]; intros s t called; simpl.
  - left. exists s. rewrite Nat.add_0_r, app_nil_r. repeat split; auto.
  - destruct (grad_input_gen net s c use_cuda) as [[[x|] s']|e] eqn:Hg.
    + right; left. exists [], c, rest, s, x, s'. simpl.
      rewrite Nat.add_1_r. repeat split; auto.
    + specialize (IH s' (S t) (called ++ [c])).
      destruct (grad_loop net use_cuda v3 s' rest (S t) (called ++ [c]))
        as [g|e].
      * destruct IH as [(s1 & H1 & H2 & H3)
                       |[(pre & c' & post & s1 & x & s2 & -> & H1 & H2 & H3 & H4)
                        |(pre & c' & post & s1 & e & -> & H1 & H2 & H3 & H4 & H5)]].
        -- left. exists s1. rewrite all_gave_up_cons, Hg.
           rewrite H2, H3, <- app_assoc. simpl.
           repeat split; auto; f_equal; lia.
        -- right; left. exists (c :: pre), c', post, s1, x, s2.
           rewrite all_gave_up_cons, Hg, H3, H4, <- app_assoc. simpl.
           repeat split; auto; f_equal; lia.
        -- right; right. exists (c :: pre), c', post, s1, e.
           rewrite all_gave_up_cons, Hg, H5, <- app_assoc. simpl.
           repeat split; auto.
      * destruct IH as (pre & c' & post & s1 & -> & H1 & H2 & H3).
        exists (c :: pre), c', post, s1.
        rewrite all_gave_up_cons, Hg. simpl. repeat split; auto.
    + unfold is_no_grad.
      destruct (isinstance_RuntimeError e) eqn:Hrt;
        [destruct (contains NO_GRAD_FN (exn_str e)) eqn:Hmsg|].
      * right; right. exists [], c, rest, s, e. simpl.
        unfold is_no_grad. rewrite Hrt, Hmsg.
        repeat split; auto. now destruct v3.
      * exists [], c, rest, s. simpl. unfold is_no_grad.
        rewrite Hrt, Hmsg. repeat split; auto.
      * exists [], c, rest, s. simpl. unfold is_no_grad.
        rewrite Hrt. repeat split; auto.
Qed.


(** X1. The result of the blind search tells how it ran.  Success: the
    candidates before the last evaluated one were all invalid and the last
    one valid, the attempt count being its position.  Failure: every
    candidate was evaluated and invalid, the attempt count being the length
    of the sequence.  An exception: it is the one forward evaluation raised
    on the first candidate that did not evaluate to invalid. *)
Theorem v3_search_inversion (s : NetState) (samples : list Candidate) :
  let s0 := set_check_intermediate_numeric net true s in
  match v3_search net s samples with
  | Ok run =>
      if succ (v3_outcome run)
      then exists pre c post s1,
          samples = pre ++ c :: post
          /\ all_invalid net s0 pre = Some s1
          /\ forward net s1 c = Ok (v3_net run)
          /\ invalid_found_last net (v3_net run) = false
          /\ try_times (v3_outcome run) = S (List.length pre)
      else all_invalid net s0 samples = Some (v3_net run)
           /\ try_times (v3_outcome run) = List.length samples
  | Raise e =>
      exists pre c post s1,
        samples = pre ++ c :: post
        /\ all_invalid net s0 pre = Some s1
        /\ forward net s1 c = Raise e
  end.
Proof.
  intros s0. unfold v3_search. fold s0.
  pose proof (v3_loop_inversion samples s0 0 []) as H.
  destruct (v3_loop net s0 samples 0 []) as [run|e]; [|exact H].
  destruct H as (_ & _ & H). exact H.
Qed.

(** X2. The result of the gradient search tells how it ran: it exhausted
    the sequence, every call having returned [None]; or a call returned
    inputs and the attempt count is the position of that call; or a call
    raised the "no grad_fn" RuntimeError and the outcome is the one passed
    in from the blind search.  An exception that comes out was raised by
    [grad_input_gen] and is not the "no grad_fn" RuntimeError. *)
Theorem grad_search_inversion (use_cuda : bool) (v3 : Outcome)
    (s : NetState) (samples : list Candidate) :
  match grad_search net use_cuda v3 s samples with
  | Ok g =>
      (exists s1,
          all_gave_up net use_cuda s samples = Some s1
          /\ grad_outcome g = mkOutcome false (List.length samples)
          /\ grad_called g = samples)
      \/ (exists pre c post s1 x s2,
             samples = pre ++ c :: post
             /\ all_gave_up net use_cuda s pre = Some s1
             /\ grad_input_gen net s1 c use_cuda = Ok (Some x, s2)
             /\ grad_outcome g = mkOutcome true (S (List.length pre))
             /\ grad_called g = pre ++ [c])
      \/ (exists pre c post s1 e,
             samples = pre ++ c :: post
             /\ all_gave_up net use_cuda s pre = Some s1
             /\ grad_input_gen net s1 c use_cuda = Raise e
             /\ is_no_grad e = true
             /\ grad_outcome g = v3
             /\ grad_called g = pre ++ [c])
  | Raise e =>
      exists pre c post s1,
        samples = pre ++ c :: post
        /\ all_gave_up net use_cuda s pre = Some s1
        /\ grad_input_gen net s1 c use_cuda = Raise e
        /\ is_no_grad e = false
  end.
Proof.
  unfold grad_search. exact (grad_loop_inversion use_cuda v3 samples s 0 []).
Qed.

Lemma firstn_snoc_prefix {A : Type} (pre post : list A) (c : A) :
  pre ++ [c] = firstn (S (List.length pre)) (pre ++ c :: post).
Proof.
  replace (S (List.length pre)) with (List.length (pre ++ [c]))
    by (rewrite length_app; simpl; lia).
  replace (pre ++ c :: post) with ((pre ++ [c]) ++ post)
    by (now rewrite <- app_assoc).
  now rewrite firstn_app, Nat.sub_diag, firstn_all, app_nil_r.
Qed.

(** X3. Both searches hand the candidates to the network in sequence
    order, without skipping any: what each has called is a prefix of the
    sequence, as long as the blind attempt count, and never empty when the
    sequence is not. *)
Theorem searches_follow_sequence (use_cuda : bool) (v3 : Outcome)
    (s s' : NetState) (samples : list Candidate) (run : V3Run NetState)
    (g : GradRun) :
  v3_search net s samples = Ok run ->
  grad_search net use_cuda v3 s' samples = Ok g ->
  v3_called run = firstn (try_times (v3_outcome run)) samples
  /\ grad_called g = firstn (List.length (grad_called g)) samples
  /\ (samples <> [] -> v3_called run <> [] /\ grad_called g <> []).
Proof.
  intros Hv3 Hg.
  unfold v3_search in Hv3.
  pose proof (v3_loop_inversion samples
                (set_check_intermediate_numeric net true s) 0 []) as Hv.
  rewrite Hv3 in Hv. destruct Hv as (_ & Hcalled & _).
  rewrite Nat.sub_0_r in Hcalled. simpl in Hcalled.
  pose proof (v3_loop_counts net samples _ 0 [] run Hv3) as (_ & Hpos & _).
  pose proof (grad_loop_inversion use_cuda v3 samples s' 0 []) as Hi.
  unfold grad_search in Hg. rewrite Hg in Hi. simpl in Hi.
  assert (Hpre : grad_called g = firstn (List.length (grad_called g)) samples
                 /\ (samples <> [] -> grad_called g <> [])).
  { destruct Hi as [(s1 & _ & _ & ->)
                   |[(pre & c & post & s1 & x & s2 & -> & _ & _ & _ & ->)
                    |(pre & c & post & s1 & e & -> & _ & _ & _ & _ & ->)]].
    - split; [now rewrite firstn_all|auto].
    - split; [|intros _; now destruct pre].
      rewrite length_app, Nat.add_1_r. apply firstn_snoc_prefix.
    - split; [|intros _; now destruct pre].
      rewrite length_app, Nat.add_1_r. apply firstn_snoc_prefix. }
  destruct Hpre as [Hp Hne].
  split; [exact Hcalled|]. split; [exact Hp|].
  intros Hs. split; [|now apply Hne].
  specialize (Hpos Hs). rewrite Hcalled.
  destruct samples as [|c rest]; [congruence|].
  destruct (try_times (v3_outcome run)); [lia|discriminate].
Qed.

(** X4. The gradient search succeeds at the first candidate for which
    [grad_input_gen] returns inputs: when the calls before position
    [S (length pre)] returned [None] and the call at that position returns
    inputs, the outcome is success with that attempt count, and no further
    candidate is handed to the network. *)
Theorem grad_search_succeeds (use_cuda : bool) (v3 : Outcome) (s s1 s2 : NetState)
    (pre post : list Candidate) (c x : Candidate) :
  all_gave_up net use_cuda s pre = Some s1 ->
  grad_input_gen net s1 c use_cuda = Ok (Some x, s2) ->
  grad_search net use_cuda v3 s (pre ++ c :: post) =
    Ok (mkGradRun (mkOutcome true (S (List.length pre))) (pre ++ [c])).
Proof.
  intros Hpre Hg. unfold grad_search.
  rewrite (grad_loop_skip net use_cuda v3 pre (c :: post) s s1 0 [] Hpre).
  simpl. now rewrite Hg.
Qed.

(** X5. A search that reports failure reports as many attempts as there are
    candidates: the blind search because it has tried them all, the
    gradient search because it has tried them all or has taken over the
    failure of the blind search. *)
Theorem failure_reports_full_length (use_cuda : bool) (s : NetState)
    (samples : list Candidate) (run : V3Run NetState) (g : GradRun) :
  v3_search net s samples = Ok run ->
  grad_search net use_cuda (v3_outcome run) (v3_net run) samples = Ok g ->
  (succ (v3_outcome run) = false ->
   try_times (v3_outcome run) = List.length samples)
  /\ (succ (grad_outcome g) = false ->
      try_times (grad_outcome g) = List.length samples).
Proof.
  intros Hv3 Hg.
  pose proof (v3_loop_inversion samples
                (set_check_intermediate_numeric net true s) 0 []) as Hv.
  unfold v3_search in Hv3. rewrite Hv3 in Hv.
  destruct Hv as (_ & _ & Hv).
  assert (H1 : succ (v3_outcome run) = false ->
               try_times (v3_outcome run) = List.length samples).
  { intros Hs. rewrite Hs in Hv. now destruct Hv. }
  split; [exact H1|].
  pose proof (grad_loop_inversion use_cuda (v3_outcome run) samples
                (v3_net run) 0 []) as Hi.
  unfold grad_search in Hg. rewrite Hg in Hi. simpl in Hi.
  destruct Hi as [(s1 & _ & -> & _)
                 |[(pre & c & post & s1 & x & s2 & _ & _ & _ & -> & _)
                  |(pre & c & post & s1 & e & _ & _ & _ & _ & -> & _)]];
    simpl; auto; discriminate.
Qed.

End SearchOutcomes.


(* ------------------------------------------------------------------------- *)
(** * Further properties of the sampler and of the exception test *)

Lemma init_tensors_for_sizes (v interval : Q) (shapes : list Shape) :
  forall g cand g',
    init_tensors_for g v interval shapes = (cand, g') ->
    Forall (fun t => List.length (data t) = numel (shape t)) cand.
Proof.
  induction shapes as [|sh rest IH]; intros g cand g' H; simpl in H.
  - injection H as <- _. constructor.
  - destruct (init_tensors_for
                (mkGenerator (draw g) (consumed g + numel sh)) v interval rest)
      as [ts g2] eqn:E.
    injection H as <- _. constructor.
    + simpl. now rewrite !length_map, length_seq.
    + exact (IH _ _ _ E).
Qed.

Lemma sample_loop_consumption (interval : Q) (shapes : list Shape)
    (centers : list Q) :
  forall g samples g',
    sample_loop g interval shapes centers = (samples, g') ->
    draw g' = draw g
    /\ consumed g' =
       consumed g + List.length centers * draws_per_candidate shapes
    /\ Forall (fun cand =>
                 map shape cand = shapes
                 /\ Forall (fun t => List.length (data t) = numel (shape t))
                      cand) samples.
Proof.
  induction centers as [|v0 rest IH]; intros g samples g' H; simpl in H.
  - injection H as <- <-. repeat split; auto.
  - destruct (init_tensors_for g v0 interval shapes) as [c0 g1] eqn:E0.
    destruct (sample_loop g1 interval shapes rest) as [cs g2] eqn:E1.
    injection H as <- <-.
    pose proof (init_tensors_for_sizes _ _ _ _ _ _ E0) as Hsz.
    apply init_tensors_for_spec in E0 as (Hd & Hc & Hs & _).
    apply IH in E1 as (Hd' & Hc' & Hall).
    repeat split.
    + congruence.
    + rewrite Hc', Hc. simpl. lia.
    + constructor; auto.
Qed.

Lemma init_tensor_samples_ok_positive (g g' : Generator) (n_step : Z)
    (shapes : list Shape) (samples : list Candidate) :
  init_tensor_samples g n_step shapes = Ok (samples, g') -> (1 <= n_step)%Z.
Proof.
  intros H.
  destruct (Z.lt_trichotomy n_step 0) as [Hneg|[->|Hpos]]; [| |lia].
  - unfold init_tensor_samples, true_div_1, Numpy.linspace in H.
    replace (n_step =? 0)%Z with false in H
      by (symmetry; apply Z.eqb_neq; lia).
    replace (n_step <? 0)%Z with true in H
      by (symmetry; apply Z.ltb_lt; lia).
    discriminate.
  - discriminate.
Qed.

Lemma init_tensor_samples_length (g g' : Generator) (n_step : Z)
    (shapes : list Shape) (samples : list Candidate) :
  init_tensor_samples g n_step shapes = Ok (samples, g') ->
  List.length samples = Z.to_nat n_step /\ samples <> [].
Proof.
  intros H.
  pose proof (init_tensor_samples_ok_positive _ _ _ _ _ H) as Hn.
  destruct (init_tensor_samples_runs g n_step shapes Hn)
    as (centers & samples' & g'' & _ & Hlen & Hrun & Hloop).
  rewrite Hrun in H. injection H as -> ->.
  destruct (sample_loop_spec _ _ _ _ _ _ Hloop) as [Hlen' _].
  split; [congruence|]. intros ->. simpl in Hlen'. lia.
Qed.

(** X6. The sampler returns exactly when [n_step >= 1], and then with a
    non-empty sequence of [n_step] candidates; for [n_step = 0] the division
    of line 66 raises [ZeroDivisionError], for a negative [n_step] the sweep
    of line 67 raises [ValueError]. *)
Theorem init_tensor_samples_returns_iff (g : Generator) (n_step : Z)
    (shapes : list Shape) :
  match init_tensor_samples g n_step shapes with
  | Ok (samples, _) =>
      (1 <= n_step)%Z
      /\ List.length samples = Z.to_nat n_step
      /\ samples <> []
  | Raise e =>
      (n_step = 0%Z /\ e = ZeroDivisionError)
      \/ ((n_step < 0)%Z /\ e = ValueError_linspace)
  end.
Proof.
  destruct (Z.lt_trichotomy n_step 0) as [Hneg|[->|Hpos]].
  - unfold init_tensor_samples, true_div_1, Numpy.linspace.
    replace (n_step =? 0)%Z with false by (symmetry; apply Z.eqb_neq; lia).
    replace (n_step <? 0)%Z with true by (symmetry; apply Z.ltb_lt; lia).
    simpl. right. split; [exact Hneg|reflexivity].
  - simpl. left. split; reflexivity.
  - assert (Hn : (1 <= n_step)%Z) by lia.
    destruct (init_tensor_samples_runs g n_step shapes Hn)
      as (centers & samples & g' & _ & Hlen & -> & Hloop).
    destruct (sample_loop_spec _ _ _ _ _ _ Hloop) as [Hlen' _].
    split; [exact Hn|]. split; [congruence|].
    intros ->. simpl in Hlen'. lia.
Qed.

(** X7. When the sampler returns, it has consumed exactly
    [n_step * (number of input elements)] raw draws of the generator and
    left the stream of draws as it was; every candidate has one tensor per
    declared input, of the declared shape and with as many elements as the
    shape has. *)
Theorem sampler_consumption (g g' : Generator) (n_step : Z)
    (shapes : list Shape) (samples : list Candidate) :
  init_tensor_samples g n_step shapes = Ok (samples, g') ->
  draw g' = draw g
  /\ consumed g' = consumed g + Z.to_nat n_step * draws_per_candidate shapes
  /\ Forall (fun cand =>
               map shape cand = shapes
               /\ Forall (fun t => List.length (data t) = numel (shape t))
                    cand) samples.
Proof.
  intros H.
  pose proof (init_tensor_samples_ok_positive _ _ _ _ _ H) as Hn.
  destruct (init_tensor_samples_runs g n_step shapes Hn)
    as (centers & samples' & g'' & _ & Hlen & Hrun & Hloop).
  rewrite Hrun in H. injection H as -> ->.
  apply sample_loop_consumption in Hloop as (Hd & Hc & Hall).
  rewrite Hlen in Hc. auto.
Qed.

Lemma prefix_iff (a b : string) :
  String.prefix a b = true <-> exists post, b = (a ++ post)%string.
Proof.
  revert b. induction a as [|x a IH]; intros b.
  - split; [intros _; now exists b|intros _; now destruct b].
  - destruct b as [|y b]; simpl.
    + split; [discriminate|intros [post H]; discriminate].
    + destruct (ascii_dec x y) as [->|Hne].
      * rewrite IH. split; intros [post H]; exists post; congruence.
      * split; [discriminate|intros [post H]; congruence].
Qed.

Lemma contains_iff (needle hay : string) :
  contains needle hay = true
  <-> exists pre post, hay = (pre ++ needle ++ post)%string.
Proof.
  induction hay as [|y hay IH].
  - cbn [contains]. destruct (String.prefix needle "") eqn:E.
    + split; [intros _|reflexivity].
      apply prefix_iff in E as [post E]. now exists ""%string, post.
    + split; [discriminate|].
      intros (pre & post & H). destruct pre; simpl in H.
      * assert (String.prefix needle "" = true)
          by (apply prefix_iff; now exists post).
        congruence.
      * discriminate.
  - cbn [contains]. destruct (String.prefix needle (String y hay)) eqn:E.
    + split; [intros _|reflexivity].
      apply prefix_iff in E as [post E]. now exists ""%string, post.
    + rewrite IH. split.
      * intros (pre & post & ->). now exists (String y pre), post.
      * intros (pre & post & H). destruct pre as [|z pre]; simpl in H.
        -- assert (String.prefix needle (String y hay) = true)
             by (apply prefix_iff; now exists post).
           congruence.
        -- injection H as _ ->. now exists pre, post.
Qed.

(** X8. The fall back of lines 100-105 is taken for exactly the exceptions
    that [except RuntimeError] catches and whose text has the "no grad_fn"
    message somewhere inside it, whatever precedes or follows the message. *)
Theorem is_no_grad_iff (e : PyExn) :
  is_no_grad e = true
  <-> isinstance_RuntimeError e = true
      /\ exists pre post, exn_str e = (pre ++ NO_GRAD_FN ++ post)%string.
Proof.
  unfold is_no_grad. rewrite andb_true_iff, contains_iff. reflexivity.
Qed.


(* ------------------------------------------------------------------------- *)
(** * Further properties of the harness *)

Section HarnessRuns.

Context {NetState : Type} (net : SymbolNet NetState).
Variable time_time : nat -> Q.
Variable new_model : nat -> result (Z * NetState).
Variable args : Args.

Local Abbreviation body := (iteration net time_time new_model args).
Local Abbreviation loop := (models_loop net time_time new_model args).
Local Abbreviation script := (main net time_time new_model args).

(** What a completed iteration has done. *)
Lemma iteration_completed (i : nat) (m : Machine) :
  snd (body i m) = Ok tt ->
  exists seed s samples g' run gr,
    new_model i = Ok (seed, s)
    /\ init_tensor_samples (torch_rng m) (n_inp_sample args)
         (input_info net s) = Ok (samples, g')
    /\ v3_search net s samples = Ok run
    /\ grad_search net (use_cuda args) (v3_outcome run) (v3_net run) samples
       = Ok gr
    /\ fst (body i m) =
       mkMachine
         (extend_results (results m)
            (mkResults [seed] [graph_nodes net s]
               [(time_time (S (clock_reads m))
                 - time_time (clock_reads m))%Q]
               [try_times (v3_outcome run)] [succ (v3_outcome run)]
               [(time_time (S (S (S (clock_reads m))))
                 - time_time (S (S (clock_reads m))))%Q]
               [try_times (grad_outcome gr)] [succ (grad_outcome gr)]))
         g' (4 + clock_reads m) (csv m).
Proof.
  destruct m as [r g n f].
  unfold iteration, mbind, lift, update_results, sample, time_call. simpl.
  destruct (new_model i) as [[seed s]|e] eqn:E1; simpl; [|discriminate].
  destruct (init_tensor_samples g (n_inp_sample args) (input_info net s))
    as [[samples g']|e] eqn:E2; simpl; [|discriminate].
  destruct (v3_search net s samples) as [v3|e] eqn:E3; simpl;
    [|discriminate].
  destruct (grad_search net (use_cuda args) (v3_outcome v3) (v3_net v3)
              samples) as [gr|e] eqn:E4; simpl; [|discriminate].
  intros _. exists seed, s, samples, g', v3, gr.
  repeat split; auto.
Qed.


Lemma loop_step (i : nat) (idx : list nat) (m m' : Machine) :
  loop (i :: idx) m = (m', Ok tt) ->
  snd (body i m) = Ok tt /\ loop idx (fst (body i m)) = (m', Ok tt).
Proof.
  unfold models_loop. simpl. unfold mbind.
  destruct (body i m) as [m1 [[]|e]]; simpl; [auto|discriminate].
Qed.

(** An invariant of the table that every completed iteration extends by a
    row satisfying it holds for the table of a completed loop. *)
Lemma loop_invariant (P : Results -> Prop) (row_ok : Results -> Prop)
    (Hext : forall r d, P r -> row_ok d -> P (extend_results r d))
    (Hrow : forall i m,
        snd (body i m) = Ok tt ->
        exists d, results (fst (body i m)) = extend_results (results m) d
                  /\ row_ok d) :
  forall idx m m',
    loop idx m = (m', Ok tt) -> P (results m) -> P (results m').
Proof.
  induction idx as [|i idx IH]; intros m m' H HP.
  - unfold models_loop in H. simpl in H. now injection H as <-.
  - apply loop_step in H as [Hi Hrest].
    destruct (Hrow i m Hi) as (d & Hd & Hok).
    apply (IH _ _ Hrest). rewrite Hd. now apply Hext.
Qed.

Lemma script_completed (g : Generator) :
  snd (script g) = Ok tt ->
  exists m,
    loop (seq 0 (Z.to_nat (n_model args))) (boot g) = (m, Ok tt)
    /\ results (fst (script g)) = results m
    /\ clock_reads (fst (script g)) = clock_reads m.
Proof.
  unfold main. fold (boot g). unfold mbind.
  destruct (loop (seq 0 (Z.to_nat (n_model args))) (boot g))
    as [m [[]|e]]; simpl; [|discriminate].
  intros H. exists m. unfold to_csv in *.
  destruct (rectangular (results m)); simpl in *; auto.
Qed.

(** X9. In the table of a completed run every recorded attempt count, of
    either search, lies between 1 and [n_inp_sample], and every row whose
    success flag is false records exactly [n_inp_sample] attempts. *)
Theorem completed_run_attempts (g : Generator) :
  snd (script g) = Ok tt ->
  let n := Z.to_nat (n_inp_sample args) in
  let r := results (fst (script g)) in
  Forall (fun t => 1 <= t <= n) (v3_try r)
  /\ Forall (fun t => 1 <= t <= n) (grad_try r)
  /\ Forall2 (fun ok t => ok = false -> t = n) (v3_succ r) (v3_try r)
  /\ Forall2 (fun ok t => ok = false -> t = n) (grad_succ r) (grad_try r).
Proof.
  intros Hdone n r.
  destruct (script_completed g Hdone) as (m & Hloop & Hres & _).
  unfold r. rewrite Hres. clear r Hres.
  set (P := fun r : Results =>
    Forall (fun t => 1 <= t <= n) (v3_try r)
    /\ Forall (fun t => 1 <= t <= n) (grad_try r)
    /\ Forall2 (fun ok t => ok = false -> t = n) (v3_succ r) (v3_try r)
    /\ Forall2 (fun ok t => ok = false -> t = n) (grad_succ r) (grad_try r)).
  change (P (results m)).
  apply (loop_invariant P P) with (idx := seq 0 (Z.to_nat (n_model args)))
                                  (m := boot g); auto.
  - intros r d (A1 & A2 & A3 & A4) (B1 & B2 & B3 & B4).
    unfold P, extend_results. simpl.
    repeat split;
      solve [apply Forall_app; auto | apply Forall2_app; auto].
  - intros i m0 Hi.
    destruct (iteration_completed i m0 Hi)
      as (seed & s & samples & g' & run & gr & _ & Hs & Hv3 & Hg & Hm).
    eexists. split; [rewrite Hm; reflexivity|].
    destruct (init_tensor_samples_length _ _ _ _ _ Hs) as [Hlen Hne].
    fold n in Hlen.
    unfold v3_search in Hv3. unfold grad_search in Hg.
    pose proof (v3_loop_counts net samples _ 0 [] run Hv3)
      as (Hb & Hpos & _).
    specialize (Hpos Hne).
    pose proof (v3_loop_inversion net samples
                  (set_check_intermediate_numeric net true s) 0 []) as Hv.
    rewrite Hv3 in Hv. destruct Hv as (_ & _ & Hv).
    pose proof (grad_loop_counts net (use_cuda args) (v3_outcome run)
                  samples _ 0 [] gr Hg) as Hgc.
    pose proof (grad_loop_inversion net (use_cuda args) (v3_outcome run)
                  samples (v3_net run) 0 []) as Hgi.
    rewrite Hg in Hgi. simpl in Hgi.
    assert (V1 : 1 <= try_times (v3_outcome run) <= n) by (simpl in *; lia).
    assert (V2 : succ (v3_outcome run) = false ->
                 try_times (v3_outcome run) = n).
    { intros E. rewrite E in Hv. destruct Hv as [_ ->]. simpl. exact Hlen. }
    assert (G1 : 1 <= try_times (grad_outcome gr) <= n).
    { destruct Hgc as [->|(Hb' & Hpos' & _)]; [exact V1|].
      specialize (Hpos' Hne). simpl in *. lia. }
    assert (G2 : succ (grad_outcome gr) = false ->
                 try_times (grad_outcome gr) = n).
    { destruct Hgi as [(s1 & _ & -> & _)
                      |[(pre & c & post & s1 & x & s2 & _ & _ & _ & -> & _)
                       |(pre & c & post & s1 & e & _ & _ & _ & _ & -> & _)]];
        simpl; auto; discriminate. }
    unfold P. simpl. repeat split; repeat constructor; auto; lia.
  - unfold P, boot. simpl. repeat split; constructor.
Qed.


Lemma loop_split (k : nat) (m : Machine) :
  k < Z.to_nat (n_model args) ->
  loop (seq 0 (Z.to_nat (n_model args))) m =
  (for_each (seq 0 k) body ;;;
   for_each (k :: seq (S k) (Z.to_nat (n_model args) - S k)) body) m.
Proof.
  intros Hk. unfold models_loop. rewrite <- for_each_app.
  f_equal.
  change (k :: seq (S k) (Z.to_nat (n_model args) - S k))
    with (seq k (S (Z.to_nat (n_model args) - S k))).
  rewrite <- seq_app. f_equal. lia.
Qed.

(** The run ends with whatever makes iteration [k] fail, the machine being
    as that iteration left it. *)
Lemma script_stops_at (g : Generator) (k : nat) (m_k : Machine)
    (e : PyExn) :
  k < Z.to_nat (n_model args) ->
  loop (seq 0 k) (boot g) = (m_k, Ok tt) ->
  snd (body k m_k) = Raise e ->
  script g = (fst (body k m_k), Raise e).
Proof.
  intros Hk Hloop Hfail. unfold main. fold (boot g).
  unfold mbind at 1. rewrite (loop_split k _ Hk). unfold mbind at 1.
  fold (loop (seq 0 k) (boot g)). rewrite Hloop.
  simpl. unfold mbind.
  destruct (body k m_k) as [m1 r1]. simpl in Hfail. now rewrite Hfail.
Qed.

(** X10. When generating model [k] fails (lines 55-59 raise), the run ends
    with that exception before anything is recorded for model [k]: the
    table, the generator and the clock are exactly as the [k] earlier models
    left them, and nothing is written. *)
Theorem generator_failure_aborts (g : Generator) (k : nat) (m_k : Machine)
    (e : PyExn) :
  k < Z.to_nat (n_model args) ->
  loop (seq 0 k) (boot g) = (m_k, Ok tt) ->
  new_model k = Raise e ->
  script g = (m_k, Raise e)
  /\ csv m_k = None
  /\ has_rows k (results m_k).
Proof.
  intros Hk Hloop Hgen.
  assert (Hbody : body k m_k = (m_k, Raise e)).
  { unfold iteration, mbind, lift. now rewrite Hgen. }
  split; [|split].
  - rewrite (script_stops_at g k m_k e Hk Hloop); now rewrite Hbody.
  - pose proof (loop_csv net time_time new_model args (seq 0 k) (boot g))
      as Hc.
    now rewrite Hloop in Hc.
  - pose proof (loop_rows net time_time new_model args (seq 0 k) (boot g)
                  m_k 0 Hloop eq_refl) as H.
    now rewrite length_seq in H.
Qed.

(** X11. With [n_model <= 0] the loop body never runs, no model is
    generated, and the run completes by writing the empty table. *)
Theorem no_models_writes_empty_table (g : Generator) :
  (n_model args <= 0)%Z ->
  script g =
  (mkMachine empty_results g 0 (Some (exp_name args, empty_results)),
   Ok tt).
Proof.
  intros Hn. unfold main.
  replace (Z.to_nat (n_model args)) with 0 by lia. reflexivity.
Qed.

(** X12. With [n_inp_sample <= 0] and at least one model, the run ends in
    the sampler of the first model: [ZeroDivisionError] for 0, [ValueError]
    for a negative count.  The table then holds the seed and the node count
    of that model and nothing else, no draw of the generator and no reading
    of the clock has been made, and nothing is written. *)
Theorem no_samples_aborts_first_model (g : Generator) (seed : Z)
    (s : NetState) :
  (n_inp_sample args <= 0)%Z ->
  (1 <= n_model args)%Z ->
  new_model 0 = Ok (seed, s) ->
  script g =
  (mkMachine (mkResults [seed] [graph_nodes net s] [] [] [] [] [] [])
     g 0 None,
   Raise (if (n_inp_sample args =? 0)%Z then ZeroDivisionError
          else ValueError_linspace)).
Proof.
  intros Hs Hn Hgen.
  assert (Hsam : init_tensor_samples g (n_inp_sample args)
                   (input_info net s) =
                 Raise (if (n_inp_sample args =? 0)%Z then ZeroDivisionError
                        else ValueError_linspace)).
  { destruct (Z.eqb_spec (n_inp_sample args) 0) as [->|Hne].
    - reflexivity.
    - unfold init_tensor_samples, true_div_1, Numpy.linspace.
      replace (n_inp_sample args =? 0)%Z with false
        by (symmetry; apply Z.eqb_neq; lia).
      replace (n_inp_sample args <? 0)%Z with true
        by (symmetry; apply Z.ltb_lt; lia).
      reflexivity. }
  assert (Hbody : body 0 (boot g) =
            (mkMachine (mkResults [seed] [graph_nodes net s] [] [] [] [] [] [])
               g 0 None,
             Raise (if (n_inp_sample args =? 0)%Z then ZeroDivisionError
                    else ValueError_linspace))).
  { unfold iteration, mbind, lift, update_results, sample. simpl.
    rewrite Hgen. simpl. now rewrite Hsam. }
  rewrite (script_stops_at g 0 (boot g)
             (if (n_inp_sample args =? 0)%Z then ZeroDivisionError
              else ValueError_linspace) ltac:(lia) eq_refl);
    now rewrite Hbody.
Qed.

(** X13. A completed run has read the clock four times per model, and if
    the clock never runs backwards no recorded duration is negative. *)
Theorem completed_run_durations (g : Generator) :
  (forall a b, a <= b -> (time_time a <= time_time b)%Q) ->
  snd (script g) = Ok tt ->
  clock_reads (fst (script g)) = 4 * Z.to_nat (n_model args)
  /\ Forall (fun d => (0 <= d)%Q) (v3_time (results (fst (script g))))
  /\ Forall (fun d => (0 <= d)%Q) (grad_time (results (fst (script g)))).
Proof.
  intros Hmono Hdone.
  destruct (script_completed g Hdone) as (m & Hloop & -> & ->).
  assert (Hgen : forall idx m0 m1,
             loop idx m0 = (m1, Ok tt) ->
             Forall (fun d => (0 <= d)%Q) (v3_time (results m0)) ->
             Forall (fun d => (0 <= d)%Q) (grad_time (results m0)) ->
             clock_reads m1 = 4 * List.length idx + clock_reads m0
             /\ Forall (fun d => (0 <= d)%Q) (v3_time (results m1))
             /\ Forall (fun d => (0 <= d)%Q) (grad_time (results m1))).
  { induction idx as [|i idx IH]; intros m0 m1 H H1 H2.
    - unfold models_loop in H. simpl in H. injection H as <-. auto.
    - apply loop_step in H as [Hi Hrest].
      destruct (iteration_completed i m0 Hi)
        as (seed & s & samples & g' & run & gr & _ & _ & _ & _ & Hm).
      specialize (IH _ _ Hrest). rewrite Hm in IH. simpl in IH.
      destruct IH as (Hc & Hv & Hg).
      + apply Forall_app. split; [exact H1|]. constructor; [|constructor].
        unfold Qminus. rewrite <- Qle_minus_iff. apply Hmono. lia.
      + apply Forall_app. split; [exact H2|]. constructor; [|constructor].
        unfold Qminus. rewrite <- Qle_minus_iff. apply Hmono. lia.
      + split; [simpl; lia|]. split; assumption. }
  destruct (Hgen _ _ _ Hloop) as (Hc & Hv & Hg);
    [constructor|constructor|].
  rewrite length_seq in Hc. simpl in Hc. split; [lia|]. split; assumption.
Qed.

End HarnessRuns.


(* ------------------------------------------------------------------------- *)
(** * The LEMON conversion script: names and graphs *)

Module LemonFacts.
Import Lemon.

Lemma split_on_nonempty (sep : ascii) (s : string) : split_on sep s <> [].
Proof.
  destruct s as [|c s]; simpl; [discriminate|].
  destruct (Ascii.eqb c sep); [discriminate|].
  destruct (split_on sep s); discriminate.
Qed.

(** The components of a split contain no separator, and joining them with
    the separator gives the string back. *)
Lemma split_on_spec (sep : ascii) (s : string) :
  forall ws w,
    split_on sep s = ws ++ [w] ->
    ~ In sep (list_ascii_of_string w)
    /\ exists head,
        s = (head ++ w)%string
        /\ (ws = [] -> head = EmptyString)
        /\ (ws <> [] -> exists h, head = (h ++ String sep EmptyString)%string).
Proof.
  induction s as [|c s IH]; intros ws w H; simpl in H.
  - destruct ws as [|x ws]; simpl in H.
    + injection H as <-. split; [intros []|].
      exists EmptyString. repeat split; auto. congruence.
    + destruct ws; discriminate.
  - destruct (Ascii.eqb_spec c sep) as [->|Hne].
    + destruct ws as [|x ws]; simpl in H.
      * injection H as _ H. now elim (split_on_nonempty sep s).
      * injection H as <- H. destruct (IH ws w H) as (Hno & head & -> & H1 & H2).
        split; [exact Hno|].
        exists (String sep head). split; [reflexivity|].
        split; [discriminate|]. intros _.
        destruct ws as [|y ws].
        -- rewrite (H1 eq_refl). now exists EmptyString.
        -- destruct (H2 ltac:(discriminate)) as [h ->].
           now exists (String sep h).
    + destruct (split_on sep s) as [|v vs] eqn:E;
        [now elim (split_on_nonempty sep s)|].
      destruct ws as [|x ws]; simpl in H.
      * injection H as <- ->.
        destruct (IH [] v eq_refl) as (Hno & head & -> & H1 & _).
        rewrite (H1 eq_refl). simpl. split.
        -- intros [Hc|Hin]; [congruence|now apply Hno].
        -- exists EmptyString. repeat split; auto. congruence.
      * injection H as <- ->.
        destruct (IH (v :: ws) w eq_refl) as (Hno & head & -> & _ & H2).
        split; [exact Hno|].
        exists (String c head). split; [reflexivity|].
        split; [discriminate|]. intros _.
        destruct (H2 ltac:(discriminate)) as [h ->].
        now exists (String c h).
Qed.

(** X14. [name.split('/')[-1]] is the part of the name after its last
    slash: it contains no slash, the name ends with it, and what precedes it
    in the name is empty or ends with a slash. *)
Theorem last_component_spec (name : string) :
  ~ In "/"%char (list_ascii_of_string (last_component name))
  /\ exists head,
      name = (head ++ last_component name)%string
      /\ (head = EmptyString
          \/ exists h, head = (h ++ "/")%string).
Proof.
  unfold last_component.
  destruct (exists_last (split_on_nonempty "/"%char name)) as (ws & w & E).
  rewrite E, last_last.
  destruct (split_on_spec "/"%char name ws w E) as (Hno & head & Hn & H1 & H2).
  split; [exact Hno|]. exists head. split; [exact Hn|].
  destruct ws as [|x ws]; [left; now apply H1|right].
  apply H2. discriminate.
Qed.

Lemma scan_inputs (ops : list Operation) :
  forall inputs outputs_set,
    fst (scan ops inputs outputs_set) = inputs ++ filter is_placeholder ops.
Proof.
  induction ops as [|op rest IH]; intros inputs outputs_set; simpl.
  - now rewrite app_nil_r.
  - destruct (is_placeholder op).
    + rewrite IH, <- app_assoc. reflexivity.
    + apply IH.
Qed.

(** X15. The inputs reported for a graph are, in the order of the graph,
    the last name components of its placeholders without inputs whose name
    does not mention [_control_node]. *)
Theorem analyze_inputs (ops : list Operation) :
  fst (analyze_inputs_outputs ops) =
  map (fun x => last_component (op_name x))
    (filter (fun x => is_placeholder x
                      && negb (contains "_control_node" (op_name x))) ops).
Proof.
  unfold analyze_inputs_outputs, public_names. simpl.
  rewrite scan_inputs. simpl. f_equal.
  induction ops as [|op rest IH]; simpl; [reflexivity|].
  destruct (is_placeholder op); simpl; [|exact IH].
  destruct (contains "_control_node" (op_name op)); simpl; now rewrite IH.
Qed.

Lemma discard_spec (set : list nat) (j i : nat) :
  In i (discard set j) <-> In i set /\ i <> j.
Proof.
  unfold discard. destruct (existsb (Nat.eqb j) set) eqn:E.
  - split.
    + intros H. apply in_remove in H. tauto.
    + intros [H1 H2]. now apply in_in_remove.
  - split; [|tauto]. intros H. split; [exact H|]. intros ->.
    assert (existsb (Nat.eqb j) set = true)
      by (apply existsb_exists; exists j; split; [exact H|apply Nat.eqb_refl]).
    congruence.
Qed.

Lemma discard_NoDup (set : list nat) (j : nat) :
  NoDup set -> NoDup (discard set j).
Proof.
  intros H. unfold discard. destruct (existsb (Nat.eqb j) set); auto.
  induction H as [|x l Hx Hl IH]; simpl; [constructor|].
  destruct (Nat.eq_dec j x); [exact IH|].
  constructor; [|exact IH]. intros Hin. apply in_remove in Hin. tauto.
Qed.

Lemma fold_discard_spec (js : list nat) :
  forall set i,
    In i (fold_left discard js set) <-> In i set /\ ~ In i js.
Proof.
  induction js as [|j js IH]; intros set i; simpl; [tauto|].
  rewrite IH, discard_spec. split.
  - intros [[H1 H2] H3]. split; [exact H1|]. intros [->|H]; tauto.
  - intros [H1 H2]. repeat split; auto.
Qed.

Lemma fold_discard_NoDup (js : list nat) :
  forall set, NoDup set -> NoDup (fold_left discard js set).
Proof.
  induction js as [|j js IH]; intros set H; simpl; auto using discard_NoDup.
Qed.

Lemma scan_outputs (ops : list Operation) :
  forall inputs set i,
    In i (snd (scan ops inputs set))
    <-> In i set
        /\ forall op, In op ops -> is_placeholder op = false ->
                      ~ In i (op_inputs op).
Proof.
  induction ops as [|op rest IH]; intros inputs set i; simpl.
  - split; [intros H; split; [exact H|intros op []]|tauto].
  - destruct (is_placeholder op) eqn:E.
    + rewrite IH. split.
      * intros [H1 H2]. split; [exact H1|].
        intros op' [<-|Hin] Hp; [congruence|now apply H2].
      * intros [H1 H2]. split; [exact H1|]. intros op' Hin. apply H2; auto.
    + rewrite IH, fold_discard_spec. split.
      * intros [[H1 H2] H3]. split; [exact H1|].
        intros op' [<-|Hin] Hp; [exact H2|now apply H3].
      * intros [H1 H2]. repeat split; auto.
Qed.

Lemma scan_NoDup (ops : list Operation) :
  forall inputs set, NoDup set -> NoDup (snd (scan ops inputs set)).
Proof.
  induction ops as [|op rest IH]; intros inputs set H; simpl; auto.
  destruct (is_placeholder op); auto using fold_discard_NoDup.
Qed.

(** X16. An operation of the graph is left in [outputs_set] exactly when
    no operation of the graph takes one of its tensors as input; each such
    operation is left once. *)
Theorem output_positions_spec (ops : list Operation) :
  NoDup (output_positions ops)
  /\ forall i,
      In i (output_positions ops)
      <-> i < List.length ops
          /\ forall op, In op ops -> ~ In i (op_inputs op).
Proof.
  unfold output_positions. split.
  - apply scan_NoDup, seq_NoDup.
  - intros i. rewrite scan_outputs, in_seq. split.
    + intros [H1 H2]. split; [lia|].
      intros op Hin. destruct (is_placeholder op) eqn:E; [|now apply H2].
      unfold is_placeholder in E. apply andb_true_iff in E as [E _].
      apply Nat.eqb_eq in E. destruct (op_inputs op); [intros []|discriminate].
    + intros [H1 H2]. split; [lia|]. intros op Hin _. now apply H2.
Qed.

End LemonFacts.


(* ------------------------------------------------------------------------- *)
(** * The LEMON conversion script: ranking and loop *)

Module LemonScript.
Import Lemon.

Section SortBy.

Context {A : Type} (key : A -> Q).

Lemma insert_by_perm (x : A) (l : list A) :
  Permutation (x :: l) (insert_by key x l).
Proof.
  induction l as [|y l IH]; simpl; [reflexivity|].
  destruct (Qle_bool (key y) (key x)); [|reflexivity].
  rewrite perm_swap. now constructor.
Qed.

Lemma insert_by_sorted (x : A) (l : list A) :
  StronglySorted (key_le key) l -> StronglySorted (key_le key) (insert_by key x l).
Proof.
  induction 1 as [|y l Hl IH Hy]; simpl.
  - repeat constructor.
  - destruct (Qle_bool (key y) (key x)) eqn:E.
    + constructor; [exact IH|].
      apply Qle_bool_iff in E.
      rewrite <- (insert_by_perm x l). constructor; auto.
    + assert (Hlt : (key x < key y)%Q).
      { apply Qnot_le_lt. intros H. apply Qle_bool_iff in H. congruence. }
      constructor; [now constructor|].
      constructor; [now apply Qlt_le_weak|].
      eapply Forall_impl; [|exact Hy].
      intros z Hz. unfold key_le in *.
      apply Qle_trans with (key y); [now apply Qlt_le_weak|exact Hz].
Qed.

Lemma sort_by_acc (l : list A) :
  forall acc,
    StronglySorted (key_le key) acc ->
    Permutation (acc ++ l)
      (fold_left (fun sorted x => insert_by key x sorted) l acc)
    /\ StronglySorted (key_le key)
         (fold_left (fun sorted x => insert_by key x sorted) l acc).
Proof.
  induction l as [|x l IH]; intros acc Hacc; simpl.
  - rewrite app_nil_r. auto.
  - destruct (IH (insert_by key x acc) (insert_by_sorted x acc Hacc))
      as [Hp Hs].
    split; [|exact Hs].
    rewrite <- Hp, <- insert_by_perm. simpl.
    symmetry. apply Permutation_middle.
Qed.

Lemma sort_by_perm (l : list A) : Permutation l (sort_by key l).
Proof. apply (sort_by_acc l []). constructor. Qed.

Lemma sort_by_sorted (l : list A) : StronglySorted (key_le key) (sort_by key l).
Proof. apply (sort_by_acc l []). constructor. Qed.

End SortBy.

(** Sorting pairs by their first entry and forgetting the second is sorting
    the first entries. *)
Lemma insert_by_fst {B : Type} (x : Q * B) (l : list (Q * B)) :
  map fst (insert_by fst x l) = insert_by (fun v => v) (fst x) (map fst l).
Proof.
  induction l as [|y l IH]; simpl; [reflexivity|].
  destruct (Qle_bool (fst y) (fst x)); simpl; [now rewrite IH|reflexivity].
Qed.

Lemma sort_by_fst {B : Type} (l : list (Q * B)) :
  map fst (sort_by fst l) = np_sort (map fst l).
Proof.
  unfold np_sort, sort_by.
  change (@nil Q) with (map (@fst Q B) []).
  generalize (@nil (Q * B)).
  induction l as [|x l IH]; intros acc; simpl; [reflexivity|].
  now rewrite IH, insert_by_fst.
Qed.


Lemma combine_seq_fst {B : Type} (a : list B) (start : nat) :
  map fst (combine a (seq start (List.length a))) = a.
Proof.
  revert start. induction a as [|x a IH]; intros start; simpl;
    [reflexivity|now rewrite IH].
Qed.

Lemma combine_seq_snd {B : Type} (a : list B) (start : nat) :
  map snd (combine a (seq start (List.length a)))
  = seq start (List.length a).
Proof.
  revert start. induction a as [|x a IH]; intros start; simpl;
    [reflexivity|now rewrite IH].
Qed.

Lemma combine_seq_nth {B : Type} (a : list B) (start : nat) (v : B)
    (j : nat) :
  In (v, j) (combine a (seq start (List.length a))) ->
  start <= j /\ nth_error a (j - start) = Some v.
Proof.
  revert start. induction a as [|x a IH]; intros start; simpl; [intros []|].
  intros [H|H].
  - injection H as -> ->. rewrite Nat.sub_diag. auto.
  - apply IH in H as [H1 H2]. split; [lia|].
    replace (j - start) with (S (j - S start)) by lia. exact H2.
Qed.

(** ** The ranking of lines 117-119 *)

Lemma np_sort_argsort (a : list Q) :
  np_sort a = map fst (sort_by fst (combine a (seq 0 (List.length a)))).
Proof. now rewrite sort_by_fst, combine_seq_fst. Qed.

Lemma np_argsort_perm (a : list Q) :
  Permutation (seq 0 (List.length a)) (np_argsort a).
Proof.
  unfold np_argsort. rewrite <- (combine_seq_snd a 0) at 1.
  apply Permutation_map, sort_by_perm.
Qed.

Lemma np_argsort_length (a : list Q) :
  List.length (np_argsort a) = List.length a.
Proof.
  rewrite <- (Permutation_length (np_argsort_perm a)). apply length_seq.
Qed.

Lemma np_argsort_bound (a : list Q) (i j : nat) :
  nth_error (np_argsort a) i = Some j -> j < List.length a.
Proof.
  intros H. apply nth_error_In in H.
  apply (Permutation_in _ (Permutation_sym (np_argsort_perm a))) in H.
  apply in_seq in H. lia.
Qed.

Lemma time_arr_of_spec (files : list H5File) :
  time_arr_of files =
  map (fun f => (st_mtime f - earliest files)%Q) files.
Proof.
  unfold time_arr_of, earliest.
  destruct files as [|f files]; [reflexivity|].
  cbn [map]. f_equal. now rewrite map_map.
Qed.

Lemma time_arr_of_length (files : list H5File) :
  List.length (time_arr_of files) = List.length files.
Proof. rewrite time_arr_of_spec. apply length_map. Qed.

(** The sorted pairs of time and position, read as files. *)
Lemma sorted_pairs_files (files : list H5File) (pairs : list (Q * nat)) :
  Forall (fun p => nth_error (time_arr_of files) (snd p) = Some (fst p))
    pairs ->
  map fst pairs =
  map (fun f => (st_mtime f - earliest files)%Q)
    (flat_map (fun j => match nth_error files j with
                        | Some f => [f]
                        | None => []
                        end) (map snd pairs)).
Proof.
  induction 1 as [|[v j] pairs Hp _ IH]; simpl; [reflexivity|].
  simpl in Hp. rewrite time_arr_of_spec, nth_error_map in Hp.
  destruct (nth_error files j) as [f|]; [|discriminate].
  simpl in *. injection Hp as <-. now rewrite IH.
Qed.

Lemma np_sort_generation_order (files : list H5File) :
  np_sort (time_arr_of files) =
  map (fun f => (st_mtime f - earliest files)%Q) (generation_order files).
Proof.
  rewrite np_sort_argsort. unfold generation_order, np_argsort.
  apply sorted_pairs_files.
  apply Forall_forall. intros [v j] Hin.
  apply (Permutation_in _ (Permutation_sym (sort_by_perm fst _))) in Hin.
  apply combine_seq_nth in Hin as [_ Hin].
  now rewrite Nat.sub_0_r in Hin.
Qed.

Lemma flat_map_positions (files : list H5File) :
  forall start,
    flat_map (fun j => match nth_error files j with
                       | Some f => [f]
                       | None => []
                       end) (seq start (List.length files - start))
    = skipn start files.
Proof.
  intros start.
  remember (List.length files - start) as k eqn:Hk.
  revert start Hk. induction k as [|k IH]; intros start Hk; simpl.
  - symmetry. apply skipn_all2. lia.
  - rewrite (IH (S start)) by lia.
    destruct (nth_error files start) as [f|] eqn:E.
    + simpl. clear IH Hk. revert start E.
      induction files as [|x files IHf]; intros [|start] E;
        try discriminate; simpl in *.
      * now injection E as ->.
      * now apply IHf.
    + apply nth_error_None in E. lia.
Qed.

Lemma generation_order_perm (files : list H5File) :
  Permutation files (generation_order files).
Proof.
  unfold generation_order.
  rewrite <- (Permutation_flat_map _ (np_argsort_perm (time_arr_of files))).
  rewrite time_arr_of_length.
  pose proof (flat_map_positions files 0) as H.
  rewrite Nat.sub_0_r in H. simpl in H. now rewrite H.
Qed.

Lemma generation_order_nth (files : list H5File) (i : nat) :
  nth_error (generation_order files) i =
  match nth_error (np_argsort (time_arr_of files)) i with
  | Some j => nth_error files j
  | None => None
  end.
Proof.
  unfold generation_order.
  assert (Hb : Forall (fun j => j < List.length files)
                 (np_argsort (time_arr_of files))).
  { apply Forall_forall. intros j Hin.
    apply In_nth_error in Hin as [k Hk].
    apply np_argsort_bound in Hk. now rewrite time_arr_of_length in Hk. }
  revert i. induction Hb as [|j js Hj _ IH]; intros i; simpl.
  - now destruct i.
  - destruct (nth_error files j) as [f|] eqn:E.
    + destruct i; simpl; [now rewrite E|apply IH].
    + apply nth_error_None in E. lia.
Qed.

Lemma generation_order_increasing (files : list H5File) :
  StronglySorted (key_le st_mtime) (generation_order files).
Proof.
  pose proof (sort_by_sorted (fun v : Q => v) (time_arr_of files)) as Hs.
  fold (np_sort (time_arr_of files)) in Hs.
  rewrite np_sort_generation_order in Hs.
  induction (generation_order files) as [|f order IH]; [constructor|].
  simpl in Hs. inversion Hs as [|x l Hl Hx]; subst.
  constructor; [now apply IH|].
  rewrite Forall_map in Hx. eapply Forall_impl; [|exact Hx].
  intros g Hg. unfold key_le in *. simpl in Hg. lra.
Qed.

(** X17. The loop takes the files in the order of their modification
    times: the order of processing is a rearrangement of the files found,
    each taken once, and the times never decrease along it. *)
Theorem generation_order_sorted (files : list H5File) :
  Permutation files (generation_order files)
  /\ StronglySorted (key_le st_mtime) (generation_order files).
Proof.
  split; [apply generation_order_perm|apply generation_order_increasing].
Qed.

(** ** [np.diff], [min] and [max] *)

Lemma np_diff_length (l : list Q) :
  List.length (np_diff l) = List.length l - 1.
Proof.
  induction l as [|x [|y l] IH]; try reflexivity.
  change (np_diff (x :: y :: l)) with ((y - x)%Q :: np_diff (y :: l)).
  simpl List.length in *. lia.
Qed.


(** The first [i] differences add up to the distance from the first entry
    to entry [i]. *)
Lemma np_diff_telescope (l : list Q) :
  forall i x0 xi,
    nth_error l 0 = Some x0 -> nth_error l i = Some xi ->
    (np_sum (firstn i (np_diff l)) == xi - x0)%Q.
Proof.
  induction l as [|a [|b l] IH]; intros i x0 xi H0 Hi.
  - discriminate.
  - destruct i as [|[|i]]; try discriminate.
    simpl in *. injection H0 as <-. injection Hi as <-.
    unfold np_sum. simpl. ring.
  - change (np_diff (a :: b :: l)) with ((b - a)%Q :: np_diff (b :: l)).
    simpl in H0. injection H0 as <-.
    destruct i as [|i].
    + simpl in Hi. injection Hi as <-. unfold np_sum. simpl. ring.
    + simpl in Hi. cbn [firstn]. unfold np_sum in *. cbn [fold_right].
      rewrite (IH i b xi eq_refl Hi). ring.
Qed.

Lemma np_min_spec (x : Q) (rest : list Q) :
  In (np_min x rest) (x :: rest)
  /\ forall y, In y (x :: rest) -> (np_min x rest <= y)%Q.
Proof.
  unfold np_min. revert x. induction rest as [|z rest IH]; intros x; simpl.
  - split; [now left|]. intros y [<-|[]]. apply Qle_refl.
  - destruct (Qle_bool z x) eqn:E.
    + destruct (IH z) as [Hin Hle]. split.
      * right. exact Hin.
      * intros y [<-|Hy]; [|now apply Hle].
        apply Qle_bool_iff in E.
        apply Qle_trans with z; [apply Hle; now left|exact E].
    + destruct (IH x) as [Hin Hle]. split.
      * destruct Hin as [<-|Hin]; [now left|right; now right].
      * intros y [<-|[<-|Hy]].
        -- apply Hle. now left.
        -- assert (x < z)%Q
             by (apply Qnot_le_lt; intros H; apply Qle_bool_iff in H;
                 congruence).
           apply Qle_trans with x; [apply Hle; now left|].
           now apply Qlt_le_weak.
        -- apply Hle. now right.
Qed.

Lemma np_max_spec (x : Q) (rest : list Q) :
  In (np_max x rest) (x :: rest)
  /\ forall y, In y (x :: rest) -> (y <= np_max x rest)%Q.
Proof.
  unfold np_max. revert x. induction rest as [|z rest IH]; intros x; simpl.
  - split; [now left|]. intros y [<-|[]]. apply Qle_refl.
  - destruct (Qle_bool x z) eqn:E.
    + destruct (IH z) as [Hin Hle]. split.
      * right. exact Hin.
      * intros y [<-|Hy]; [|now apply Hle].
        apply Qle_bool_iff in E.
        apply Qle_trans with z; [exact E|apply Hle; now left].
    + destruct (IH x) as [Hin Hle]. split.
      * destruct Hin as [<-|Hin]; [now left|right; now right].
      * intros y [<-|[<-|Hy]].
        -- apply Hle. now left.
        -- assert (z < x)%Q
             by (apply Qnot_le_lt; intros H; apply Qle_bool_iff in H;
                 congruence).
           apply Qle_trans with x; [now apply Qlt_le_weak|].
           apply Hle. now left.
        -- apply Hle. now right.
Qed.

Lemma Qlt_bool_iff (a b : Q) : Qlt_bool a b = true <-> (a < b)%Q.
Proof.
  unfold Qlt_bool. rewrite negb_true_iff. split.
  - intros H. apply Qnot_le_lt. intros Hle.
    apply Qle_bool_iff in Hle. congruence.
  - intros H. destruct (Qle_bool b a) eqn:E; [|reflexivity].
    apply Qle_bool_iff in E. apply Qlt_not_le in H. contradiction.
Qed.


(** ** The conversion loop *)

Section Loop.

Variable onnx_dir : string.
Variable tlimit : Z.
Variable time_time : nat -> Q.
Variable run_process : nat -> string -> string -> result (option Z).
Variable files : list H5File.

Local Abbreviation idx := (np_argsort (time_arr_of files)).
Local Abbreviation diffs := (np_diff (np_sort (time_arr_of files))).
Local Abbreviation one :=
  (convert_one onnx_dir time_time run_process files idx diffs).
Local Abbreviation reached := (limit_reached tlimit time_time diffs).
Local Abbreviation loop :=
  (convert_loop onnx_dir tlimit time_time run_process files idx diffs).

Lemma np_sort_length (a : list Q) :
  List.length (np_sort a) = List.length a.
Proof.
  symmetry. apply Permutation_length, sort_by_perm.
Qed.

Lemma diffs_length : List.length diffs = List.length files - 1.
Proof.
  now rewrite np_diff_length, np_sort_length, time_arr_of_length.
Qed.

(** The line of iteration [i], in terms of the [i]-th file in the order of
    generation. *)
Lemma convert_one_spec (i clock : nat) (f : H5File) :
  nth_error (generation_order files) i = Some f ->
  exists gen,
    generation_cost diffs i = Ok gen
    /\ one i clock =
       Ok (mkLine (np_add gen (time_time (S clock) - time_time clock))
             (if match run_process i (h5_path f)
                         (os_path_join onnx_dir (to_name_of f)) with
                 | Ok (Some 0%Z) => true
                 | _ => false
                 end
              then to_name_of f else "FAILURE")).
Proof.
  intros Hf.
  assert (Hi : i < List.length files).
  { rewrite (Permutation_length (generation_order_perm files)).
    apply nth_error_Some. congruence. }
  rewrite generation_order_nth in Hf.
  assert (Hgen : exists gen, generation_cost diffs i = Ok gen).
  { unfold generation_cost. destruct (i =? 0) eqn:E; [eauto|].
    apply Nat.eqb_neq in E.
    destruct (nth_error diffs (i - 1)) as [d|] eqn:Ed; [eauto|].
    apply nth_error_None in Ed. rewrite diffs_length in Ed. lia. }
  destruct Hgen as [gen Hgen]. exists gen. split; [exact Hgen|].
  unfold convert_one.
  destruct (nth_error idx i) as [j|]; [|discriminate].
  rewrite Hf, Hgen. reflexivity.
Qed.

Lemma convert_one_ok (i clock : nat) :
  i < List.length files -> exists line, one i clock = Ok line.
Proof.
  intros Hi.
  destruct (nth_error (generation_order files) i) as [f|] eqn:E.
  - destruct (convert_one_spec i clock f E) as (gen & _ & H). eauto.
  - apply nth_error_None in E.
    rewrite <- (Permutation_length (generation_order_perm files)) in E. lia.
Qed.

(** The loop never raises; it writes the lines of consecutive iterations
    and stops at the first one after which the limit is reached. *)
Lemma convert_loop_runs (m : nat) :
  forall a clock written,
    a + m = List.length files ->
    exists new,
      loop (seq a m) clock written = (written ++ new, Ok tt)
      /\ List.length new <= m
      /\ (0 < m -> 0 < List.length new)
      /\ (forall j line,
            nth_error new j = Some line ->
            one (a + j) (clock + 3 * j) = Ok line)
      /\ (forall j,
            S j < List.length new ->
            reached (a + j) (2 + clock + 3 * j) = false)
      /\ (List.length new < m ->
          exists l,
            List.length new = S l
            /\ reached (a + l) (2 + clock + 3 * l) = true).
Proof.
  induction m as [|m IH]; intros a clock written Ha.
  - exists []. simpl. rewrite app_nil_r.
    repeat split; auto; try lia.
    intros j line H. now destruct j.
  - cbn [seq convert_loop].
    destruct (convert_one_ok a clock ltac:(lia)) as [line Hline].
    rewrite Hline.
    destruct (reached a (2 + clock)) eqn:Hlim.
    + exists [line]. split; [reflexivity|].
      split; [simpl; lia|]. split; [simpl; lia|].
      split; [|split].
      * intros [|j] l H; [|now destruct j].
        injection H as <-.
        replace (a + 0) with a by lia.
        replace (clock + 3 * 0) with clock by lia. exact Hline.
      * simpl. intros j Hj. lia.
      * intros _. exists 0. split; [reflexivity|].
        replace (a + 0) with a by lia.
        replace (2 + clock + 3 * 0) with (2 + clock) by lia. exact Hlim.
    + destruct (IH (S a) (3 + clock) (written ++ [line]) ltac:(lia))
        as (new & Hrun & Hlen & Hpos & Hnth & Hnot & Hlast).
      exists (line :: new).
      split; [rewrite Hrun, <- app_assoc; reflexivity|].
      split; [simpl; lia|]. split; [simpl; lia|].
      split; [|split].
      * intros [|j] l H.
        -- injection H as <-.
           replace (a + 0) with a by lia.
           replace (clock + 3 * 0) with clock by lia. exact Hline.
        -- replace (a + S j) with (S a + j) by lia.
           replace (clock + 3 * S j) with (3 + clock + 3 * j) by lia.
           now apply Hnth.
      * intros [|j] Hj.
        -- replace (a + 0) with a by lia.
           replace (2 + clock + 3 * 0) with (2 + clock) by lia. exact Hlim.
        -- replace (a + S j) with (S a + j) by lia.
           replace (2 + clock + 3 * S j) with (2 + (3 + clock) + 3 * j)
             by lia.
           apply Hnot. simpl in Hj. lia.
      * intros Hlt. simpl in Hlt.
        destruct (Hlast ltac:(lia)) as (l & Hl & Hr).
        exists (S l). split; [simpl; lia|].
        replace (a + S l) with (S a + l) by lia.
        replace (2 + clock + 3 * S l) with (2 + (3 + clock) + 3 * l) by lia.
        exact Hr.
Qed.


Local Abbreviation script :=
  (Lemon.main onnx_dir tlimit time_time run_process files).

Lemma main_unfold (f : H5File) (rest : list H5File) :
  files = f :: rest ->
  script =
  if Qlt_bool
       ((np_max (hd 0%Q (time_arr_of files)) (tl (time_arr_of files))
         - np_min (hd 0%Q (time_arr_of files)) (tl (time_arr_of files)))
        / 3600) 25
  then loop (seq 0 (List.length files)) 1 []
  else ([], Raise (AssertionError
          "Are you sure your steps are correct? The time span is too long...")).
Proof. intros H. unfold Lemon.main. rewrite H. reflexivity. Qed.

(** A run that ends normally is a run of the loop over all files. *)
Lemma main_ok (lines : list Line) :
  script = (lines, Ok tt) ->
  files <> []
  /\ List.length lines <= List.length files
  /\ 0 < List.length lines
  /\ (forall j line,
        nth_error lines j = Some line -> one j (1 + 3 * j) = Ok line)
  /\ (forall j,
        S j < List.length lines -> reached j (3 + 3 * j) = false)
  /\ (List.length lines < List.length files ->
      exists l, List.length lines = S l /\ reached l (3 + 3 * l) = true).
Proof.
  intros H. destruct files as [|f rest] eqn:E; [discriminate|].
  rewrite <- E in *.
  rewrite (main_unfold f rest E) in H.
  destruct (Qlt_bool _ 25); [|discriminate].
  destruct (convert_loop_runs (List.length files) 0 1 [] eq_refl)
    as (new & Hrun & Hlen & Hpos & Hnth & Hnot & Hlast).
  rewrite Hrun in H. simpl in H. injection H as <-.
  split; [rewrite E; discriminate|]. split; [exact Hlen|].
  split; [apply Hpos; rewrite E; simpl; lia|].
  split; [exact Hnth|]. split.
  - intros j Hj. apply (Hnot j Hj).
  - intros Hlt. destruct (Hlast Hlt) as (l & Hl & Hr). now exists l.
Qed.

(** The shifted times, largest minus smallest, is the span of the
    modification times. *)
Lemma time_span_spec (f : H5File) (rest : list H5File) :
  files = f :: rest ->
  exists fmax fmin,
    In fmax files /\ In fmin files
    /\ (forall g, In g files -> (st_mtime g <= st_mtime fmax)%Q)
    /\ (forall g, In g files -> (st_mtime fmin <= st_mtime g)%Q)
    /\ (np_max (hd 0%Q (time_arr_of files)) (tl (time_arr_of files))
        - np_min (hd 0%Q (time_arr_of files)) (tl (time_arr_of files))
        == st_mtime fmax - st_mtime fmin)%Q.
Proof.
  intros E.
  set (lo := earliest files).
  assert (Ha : time_arr_of files
               = (st_mtime f - lo)%Q
                 :: map (fun g => (st_mtime g - lo)%Q) rest).
  { rewrite time_arr_of_spec. fold lo. now rewrite E. }
  rewrite Ha. cbn [hd tl].
  destruct (np_max_spec (st_mtime f - lo)
              (map (fun g => (st_mtime g - lo)%Q) rest)) as [Hin Hge].
  destruct (np_min_spec (st_mtime f - lo)
              (map (fun g => (st_mtime g - lo)%Q) rest)) as [Hin' Hle].
  change ((st_mtime f - lo)%Q :: map (fun g => (st_mtime g - lo)%Q) rest)
    with (map (fun g => (st_mtime g - lo)%Q) (f :: rest)) in *.
  rewrite <- E in *.
  apply in_map_iff in Hin as (fmax & Hmax & Hinmax).
  apply in_map_iff in Hin' as (fmin & Hmin & Hinmin).
  exists fmax, fmin. repeat split; auto.
  - intros g Hg.
    assert (H : (st_mtime g - lo <= st_mtime fmax - lo)%Q).
    { rewrite Hmax. apply Hge.
      exact (in_map (fun g => (st_mtime g - lo)%Q) files g Hg). }
    lra.
  - intros g Hg.
    assert (H : (st_mtime fmin - lo <= st_mtime g - lo)%Q).
    { rewrite Hmin. apply Hle.
      exact (in_map (fun g => (st_mtime g - lo)%Q) files g Hg). }
    lra.
  - rewrite <- Hmax, <- Hmin. ring.
Qed.

Lemma span_check_iff (s : Q) :
  (s / 3600 < 25)%Q <-> (s < 25 * 3600)%Q.
Proof.
  split; intros H.
  - assert (E : (s == s / 3600 * 3600)%Q) by field.
    rewrite E. apply Qmult_lt_compat_r; [reflexivity|exact H].
  - apply Qlt_shift_div_r; [reflexivity|exact H].
Qed.

(** X18. How the script ends.  It raises only by one of its two assertions,
    before anything is written: when no file was found, or when two
    modification times lie 25 hours or more apart.  Otherwise it completes,
    whatever the conversions do, having written at least one line and at
    most one per file. *)
Theorem main_outcome :
  match script with
  | (lines, Ok _) =>
      files <> []
      /\ 1 <= List.length lines <= List.length files
      /\ forall f g, In f files -> In g files ->
                     (st_mtime f - st_mtime g < 25 * 3600)%Q
  | (lines, Raise e) =>
      lines = []
      /\ ((files = []
           /\ e = AssertionError "No files found in the folder!")
          \/ (e = AssertionError
                "Are you sure your steps are correct? The time span is too long..."
              /\ exists f g, In f files /\ In g files
                   /\ (25 * 3600 <= st_mtime f - st_mtime g)%Q))
  end.
Proof.
  destruct files as [|f0 rest] eqn:E.
  - simpl. split; [reflexivity|]. left. split; reflexivity.
  - rewrite <- E.
    destruct (time_span_spec f0 rest E)
      as (fmax & fmin & Hmax & Hmin & Hge & Hle & Hspan).
    rewrite (main_unfold f0 rest E).
    destruct (Qlt_bool _ 25) eqn:Hcheck.
    + apply Qlt_bool_iff in Hcheck. rewrite Hspan in Hcheck.
      destruct (convert_loop_runs (List.length files) 0 1 [] eq_refl)
        as (new & Hrun & Hlen & Hpos & _).
      rewrite Hrun. simpl.
      split; [rewrite E; discriminate|]. split.
      * split; [apply Hpos; rewrite E; simpl; lia|exact Hlen].
      * intros f g Hf Hg.
        pose proof (Hge f Hf). pose proof (Hle g Hg).
        apply span_check_iff in Hcheck. lra.
    + split; [reflexivity|]. right. split; [reflexivity|].
      exists fmax, fmin. repeat split; auto.
      assert (Hn : ~ ((st_mtime fmax - st_mtime fmin) / 3600 < 25)%Q).
      { intros H. rewrite <- Hspan in H. apply Qlt_bool_iff in H.
        congruence. }
      rewrite span_check_iff in Hn. apply Qnot_lt_le in Hn. exact Hn.
Qed.




Lemma order_nth_some (i : nat) :
  i < List.length files ->
  exists f, nth_error (generation_order files) i = Some f.
Proof.
  intros Hi.
  destruct (nth_error (generation_order files) i) as [f|] eqn:E; [eauto|].
  apply nth_error_None in E.
  rewrite <- (Permutation_length (generation_order_perm files)) in E. lia.
Qed.

(** The sorted times, read off the order of generation. *)
Lemma sorted_nth (i : nat) (f : H5File) :
  nth_error (generation_order files) i = Some f ->
  nth_error (np_sort (time_arr_of files)) i
  = Some (st_mtime f - earliest files)%Q.
Proof.
  intros H. now rewrite np_sort_generation_order, nth_error_map, H.
Qed.

(** X19. The lines are written in the order of generation, one per model
    taken: line [i] belongs to the [i]-th file by modification time, and
    carries that file's base name followed by [.onnx] exactly when the
    conversion process of iteration [i] exited with code 0; in every other
    case (another exit code, no exit code, an exception while running the
    process) it carries [FAILURE], and the run goes on. *)
Theorem lines_follow_generation_order (lines : list Line) (i : nat)
    (line : Line) :
  script = (lines, Ok tt) ->
  nth_error lines i = Some line ->
  exists f,
    nth_error (generation_order files) i = Some f
    /\ label line =
       if match run_process i (h5_path f)
                  (os_path_join onnx_dir (to_name_of f)) with
          | Ok (Some 0%Z) => true
          | _ => false
          end
       then to_name_of f else "FAILURE"%string.
Proof.
  intros Hrun Hline.
  destruct (main_ok lines Hrun) as (_ & Hlen & _ & Hnth & _).
  assert (Hi : i < List.length files).
  { assert (i < List.length lines) by (apply nth_error_Some; congruence).
    lia. }
  destruct (order_nth_some i Hi) as [f Hf]. exists f. split; [exact Hf|].
  destruct (convert_one_spec i (1 + 3 * i) f Hf) as (gen & _ & Hone).
  rewrite (Hnth i line Hline) in Hone. now injection Hone as ->.
Qed.

Lemma reached_iff (i clock : nat) (f0 fi : H5File) :
  nth_error (generation_order files) 0 = Some f0 ->
  nth_error (generation_order files) i = Some fi ->
  reached i clock = true
  <-> (inject_Z tlimit
       < (st_mtime fi - st_mtime f0) + (time_time clock - time_time 0))%Q.
Proof.
  intros H0 Hi. unfold limit_reached. rewrite Qlt_bool_iff.
  rewrite (np_diff_telescope _ i _ _ (sorted_nth 0 f0 H0) (sorted_nth i fi Hi)).
  split; intros H; lra.
Qed.

(** X20. The loop goes on as long as the time it took to generate the
    models taken so far (from the first modification time to that of the
    current model) plus the time spent converting stays within [tlimit],
    and stops after the first iteration where it does not.  The test comes
    after the line is written, so the first model is always taken. *)
Theorem time_limit_stops_the_loop (lines : list Line) (f0 : H5File) :
  script = (lines, Ok tt) ->
  nth_error (generation_order files) 0 = Some f0 ->
  0 < List.length lines
  /\ (forall i fi,
        S i < List.length lines ->
        nth_error (generation_order files) i = Some fi ->
        ~ (inject_Z tlimit
           < (st_mtime fi - st_mtime f0)
             + (time_time (3 + 3 * i) - time_time 0))%Q)
  /\ (List.length lines < List.length files ->
      exists l fl,
        List.length lines = S l
        /\ nth_error (generation_order files) l = Some fl
        /\ (inject_Z tlimit
            < (st_mtime fl - st_mtime f0)
              + (time_time (3 + 3 * l) - time_time 0))%Q).
Proof.
  intros Hrun H0.
  destruct (main_ok lines Hrun) as (_ & Hlen & Hpos & _ & Hnot & Hlast).
  split; [exact Hpos|]. split.
  - intros i fi Hi Hfi Hlt.
    apply (reached_iff i (3 + 3 * i) f0 fi H0 Hfi) in Hlt.
    rewrite (Hnot i Hi) in Hlt. discriminate.
  - intros Hlt. destruct (Hlast Hlt) as (l & Hl & Hr).
    destruct (order_nth_some l ltac:(lia)) as [fl Hfl].
    exists l, fl. split; [exact Hl|]. split; [exact Hfl|].
    now apply (reached_iff l (3 + 3 * l) f0 fl H0 Hfl).
Qed.


End Loop.

End LemonScript.

(* ------------------------------------------------------------------------- *)
(** * The further properties at concrete inputs *)

Module MoreWitnesses.
Import Toy.

Lemma searches_follow_sequence_witness :
  let samples := [scalar (-1); scalar (- (1 # 4)); scalar 1] in
  let run := mkV3Run (mkOutcome true 3) (mkState Refining true false)
               samples in
  let g := mkGradRun (mkOutcome true 2) [scalar (-1); scalar (- (1 # 4))] in
  v3_search toy_net (fresh Refining) samples = Ok run
  /\ grad_search toy_net false (v3_outcome run) (v3_net run) samples = Ok g
  /\ v3_called run = firstn (try_times (v3_outcome run)) samples
  /\ grad_called g = firstn (List.length (grad_called g)) samples
  /\ (samples <> [] -> v3_called run <> [] /\ grad_called g <> []).
Proof.
  intros samples run g.
  split; [reflexivity|]. split; [reflexivity|].
  apply (searches_follow_sequence toy_net false (v3_outcome run)
           (fresh Refining) (v3_net run) samples run g); reflexivity.
Defined.

Lemma grad_search_succeeds_witness :
  all_gave_up toy_net false (fresh Refining) [scalar (-1)]
    = Some (mkState Refining true true)
  /\ grad_input_gen toy_net (mkState Refining true true)
       (scalar (- (1 # 4))) false
     = Ok (Some (relu (scalar (- (1 # 4)))), mkState Refining true false)
  /\ grad_search toy_net false (mkOutcome true 3) (fresh Refining)
       ([scalar (-1)] ++ scalar (- (1 # 4)) :: [scalar 1])
     = Ok (mkGradRun (mkOutcome true 2)
             ([scalar (-1)] ++ [scalar (- (1 # 4))])).
Proof.
  split; [reflexivity|]. split; [reflexivity|].
  apply (grad_search_succeeds toy_net false (mkOutcome true 3)
           (fresh Refining) (mkState Refining true true)
           (mkState Refining true false) [scalar (-1)] [scalar 1]
           (scalar (- (1 # 4))) (relu (scalar (- (1 # 4)))));
    reflexivity.
Defined.

(** Nothing valid, no gradient: the gradient search takes over the failure
    of the blind search. *)
Lemma failure_reports_full_length_witness :
  let samples := [scalar (-3); scalar (-2); scalar (-1)] in
  let run := mkV3Run (mkOutcome false 3) (mkState NoGradFn true true)
               samples in
  let g := mkGradRun (mkOutcome false 3) [scalar (-3)] in
  v3_search toy_net (fresh NoGradFn) samples = Ok run
  /\ grad_search toy_net false (v3_outcome run) (v3_net run) samples = Ok g
  /\ (succ (v3_outcome run) = false ->
      try_times (v3_outcome run) = List.length samples)
  /\ (succ (grad_outcome g) = false ->
      try_times (grad_outcome g) = List.length samples).
Proof.
  intros samples run g.
  split; [reflexivity|]. split; [reflexivity|].
  apply (failure_reports_full_length toy_net false (fresh NoGradFn) samples
           run g); reflexivity.
Defined.

Lemma sampler_consumption_witness :
  exists samples g',
    init_tensor_samples quarter_rng 3 [[1; 2]; [3]] = Ok (samples, g')
    /\ draw g' = draw quarter_rng
    /\ consumed g' = 15
    /\ consumed g' =
       consumed quarter_rng + Z.to_nat 3 * draws_per_candidate [[1; 2]; [3]]
    /\ Forall (fun cand =>
                 map shape cand = [[1; 2]; [3]]
                 /\ Forall (fun t => List.length (data t) = numel (shape t))
                      cand) samples.
Proof.
  destruct (init_tensor_samples quarter_rng 3 [[1; 2]; [3]])
    as [[samples g']|e] eqn:E; [|discriminate].
  exists samples, g'. split; [reflexivity|].
  destruct (sampler_consumption quarter_rng g' 3 [[1; 2]; [3]] samples E)
    as (Hd & Hc & Hall).
  split; [exact Hd|]. split; [exact Hc|]. split; [exact Hc|exact Hall].
Defined.

Lemma is_no_grad_iff_witness :
  let e := mkExn true
    "RuntimeError: element 0 of tensors does not require grad and does not have a grad_fn (at backward)" in
  (isinstance_RuntimeError e = true
   /\ exists pre post, exn_str e = (pre ++ NO_GRAD_FN ++ post)%string)
  /\ is_no_grad e = true.
Proof.
  intros e.
  assert (H : isinstance_RuntimeError e = true
              /\ exists pre post,
                  exn_str e = (pre ++ NO_GRAD_FN ++ post)%string).
  { split; [reflexivity|].
    exists "RuntimeError: "%string, " (at backward)"%string. reflexivity. }
  split; [exact H|].
  apply (proj2 (is_no_grad_iff e)). exact H.
Defined.

Lemma toy_clock_monotone (a b : nat) :
  a <= b -> (toy_clock a <= toy_clock b)%Q.
Proof.
  intros H. unfold toy_clock. rewrite <- Zle_Qle. lia.
Qed.

Lemma completed_run_attempts_witness :
  let run := main toy_net toy_clock all_refining toy_args quarter_rng in
  snd run = Ok tt
  /\ v3_try (results (fst run)) = [2; 2]
  /\ Forall (fun t => 1 <= t <= 2) (v3_try (results (fst run)))
  /\ Forall (fun t => 1 <= t <= 2) (grad_try (results (fst run)))
  /\ Forall2 (fun ok t => ok = false -> t = 2)
       (v3_succ (results (fst run))) (v3_try (results (fst run)))
  /\ Forall2 (fun ok t => ok = false -> t = 2)
       (grad_succ (results (fst run))) (grad_try (results (fst run))).
Proof.
  intros run. split; [reflexivity|]. split; [reflexivity|].
  apply (completed_run_attempts toy_net toy_clock all_refining toy_args
           quarter_rng).
  reflexivity.
Defined.

Lemma generator_failure_aborts_witness :
  let m1 := fst (models_loop toy_net toy_clock second_fails toy_args
                   (seq 0 1) (boot quarter_rng)) in
  let e := mkExn false "generation timed out" in
  1 < Z.to_nat (n_model toy_args)
  /\ second_fails 1 = Raise e
  /\ main toy_net toy_clock second_fails toy_args quarter_rng
     = (m1, Raise e)
  /\ csv m1 = None
  /\ has_rows 1 (results m1).
Proof.
  intros m1 e. split; [vm_compute; lia|]. split; [reflexivity|].
  apply (generator_failure_aborts toy_net toy_clock second_fails toy_args
           quarter_rng 1 m1 e).
  - vm_compute; lia.
  - vm_compute; reflexivity.
  - reflexivity.
Defined.

Lemma no_models_writes_empty_table_witness :
  let args := mkArgs 25 7 2 0 false in
  (n_model args <= 0)%Z
  /\ main toy_net toy_clock two_models args quarter_rng
     = (mkMachine empty_results quarter_rng 0
          (Some ("r7-model0-node25-inp-search.csv"%string, empty_results)),
        Ok tt).
Proof.
  intros args. split; [vm_compute; discriminate|].
  apply (no_models_writes_empty_table toy_net toy_clock two_models args
           quarter_rng).
  vm_compute; discriminate.
Defined.

Lemma no_samples_aborts_first_model_witness :
  let args := mkArgs 25 7 0 2 false in
  (n_inp_sample args <= 0)%Z
  /\ (1 <= n_model args)%Z
  /\ two_models 0 = Ok (11%Z, fresh Refining)
  /\ main toy_net toy_clock two_models args quarter_rng
     = (mkMachine (mkResults [11%Z] [3] [] [] [] [] [] []) quarter_rng 0
          None,
        Raise ZeroDivisionError).
Proof.
  intros args. split; [vm_compute; discriminate|].
  split; [vm_compute; discriminate|]. split; [reflexivity|].
  apply (no_samples_aborts_first_model toy_net toy_clock two_models args
           quarter_rng 11%Z (fresh Refining)).
  - vm_compute; discriminate.
  - vm_compute; discriminate.
  - reflexivity.
Defined.

Lemma completed_run_durations_witness :
  let run := main toy_net toy_clock all_refining toy_args quarter_rng in
  (forall a b, a <= b -> (toy_clock a <= toy_clock b)%Q)
  /\ snd run = Ok tt
  /\ clock_reads (fst run) = 4 * Z.to_nat (n_model toy_args)
  /\ Forall (fun d => (0 <= d)%Q) (v3_time (results (fst run)))
  /\ Forall (fun d => (0 <= d)%Q) (grad_time (results (fst run))).
Proof.
  intros run. split; [exact toy_clock_monotone|]. split; [reflexivity|].
  apply (completed_run_durations toy_net toy_clock all_refining toy_args
           quarter_rng toy_clock_monotone).
  reflexivity.
Defined.

End MoreWitnesses.

Module LemonWitnesses.
Import Lemon.

Lemma output_positions_spec_witness :
  output_positions small_graph = [3; 4; 5]
  /\ snd (analyze_inputs_outputs small_graph)
     = ["Identity"%string; "unused"%string]
  /\ NoDup (output_positions small_graph)
  /\ forall i,
      In i (output_positions small_graph)
      <-> i < List.length small_graph
          /\ forall op, In op small_graph -> ~ In i (op_inputs op).
Proof.
  split; [reflexivity|]. split; [reflexivity|].
  exact (LemonFacts.output_positions_spec small_graph).
Defined.

Lemma main_outcome_witness :
  match Lemon.main "onnx" 14400 steady_clock second_crashes three_files with
  | (lines, Ok _) =>
      three_files <> []
      /\ 1 <= List.length lines <= List.length three_files
      /\ forall f g, In f three_files -> In g three_files ->
                     (st_mtime f - st_mtime g < 25 * 3600)%Q
  | (lines, Raise e) =>
      lines = []
      /\ ((three_files = []
           /\ e = AssertionError "No files found in the folder!")
          \/ (e = AssertionError
                "Are you sure your steps are correct? The time span is too long..."
              /\ exists f g, In f three_files /\ In g three_files
                   /\ (25 * 3600 <= st_mtime f - st_mtime g)%Q))
  end.
Proof.
  exact (LemonScript.main_outcome "onnx" 14400 steady_clock second_crashes
           three_files).
Defined.

(** The second model by modification time is [out/m2/b.h5]; its conversion
    crashes. *)
Lemma lines_follow_generation_order_witness :
  let run := Lemon.main "onnx" 14400 steady_clock second_crashes
               three_files in
  run = (fst run, Ok tt)
  /\ map label (fst run)
     = ["a.h5.onnx"%string; "FAILURE"%string; "c.h5.onnx"%string]
  /\ exists line f,
      nth_error (fst run) 1 = Some line
      /\ nth_error (generation_order three_files) 1 = Some f
      /\ h5_path f = "out/m2/b.h5"%string
      /\ label line =
         if match second_crashes 1 (h5_path f)
                    (os_path_join "onnx" (to_name_of f)) with
            | Ok (Some 0%Z) => true
            | _ => false
            end
         then to_name_of f else "FAILURE"%string.
Proof.
  intros run.
  assert (Hrun : run = (fst run, Ok tt)) by (vm_compute; reflexivity).
  split; [exact Hrun|]. split; [reflexivity|].
  destruct (nth_error (fst run) 1) as [line|] eqn:Hline;
    [|vm_compute in Hline; discriminate].
  destruct (LemonScript.lines_follow_generation_order "onnx" 14400
              steady_clock second_crashes three_files (fst run) 1 line
              Hrun Hline) as (f & Hf & Hlabel).
  exists line, f. split; [reflexivity|]. split; [exact Hf|].
  split; [|exact Hlabel].
  vm_compute in Hf. injection Hf as <-. reflexivity.
Defined.

(** With a limit of 30 seconds the loop stops after the second model:
    30 seconds of generation and 12 of conversion have passed. *)
Lemma time_limit_stops_the_loop_witness :
  let run := Lemon.main "onnx" 30 steady_clock second_crashes three_files in
  let f0 := mkH5File "out/m1/a.h5" 100 in
  run = (fst run, Ok tt)
  /\ nth_error (generation_order three_files) 0 = Some f0
  /\ List.length (fst run) = 2
  /\ 0 < List.length (fst run)
  /\ (forall i fi,
        S i < List.length (fst run) ->
        nth_error (generation_order three_files) i = Some fi ->
        ~ (inject_Z 30
           < (st_mtime fi - st_mtime f0)
             + (steady_clock (3 + 3 * i) - steady_clock 0))%Q)
  /\ (List.length (fst run) < List.length three_files ->
      exists l fl,
        List.length (fst run) = S l
        /\ nth_error (generation_order three_files) l = Some fl
        /\ (inject_Z 30
            < (st_mtime fl - st_mtime f0)
              + (steady_clock (3 + 3 * l) - steady_clock 0))%Q).
Proof.
  intros run f0.
  assert (Hrun : run = (fst run, Ok tt)) by (vm_compute; reflexivity).
  split; [exact Hrun|]. split; [reflexivity|]. split; [reflexivity|].
  apply (LemonScript.time_limit_stops_the_loop "onnx" 30 steady_clock
           second_crashes three_files (fst run) f0 Hrun).
  reflexivity.
Defined.


(** A single file: no distance between modification times, the cost is
    [nan]. *)
Example single_file_cost_is_nan :
  Lemon.main "onnx" 14400 steady_clock second_crashes
    [mkH5File "out/m1/a.h5" 100]
  = ([mkLine NaN "a.h5.onnx"], Ok tt).
Proof. reflexivity. Qed.

(** Two files 26 hours apart: the second assertion stops the script. *)
Example long_span_is_refused :
  Lemon.main "onnx" 14400 steady_clock second_crashes
    [mkH5File "a.h5" 0; mkH5File "b.h5" 93600]
  = ([], Raise (AssertionError
       "Are you sure your steps are correct? The time span is too long...")).
Proof. reflexivity. Qed.

End LemonWitnesses.
